(** * news_automation: the three tool adapters of [crew.py] and [run] of [main.py]

    The tools are Python functions that read [os.environ], build JSON-shaped
    values and call into third-party clients ([requests], the Google API
    client, CrewAI).  They are embedded as computations in a monad that
    threads the trace of calls made to those clients and carries Python
    exceptions; the clients themselves are a [world] of oracles. *)

From stdpp Require Import gmap strings list fin_maps pretty.
From Stdlib Require Import ZArith.

Set Warnings "-register-all".
Open Scope Z_scope.

(** ** Python values *)

(** JSON-shaped Python values: what the tools receive as arguments, send as
    request bodies and get back from [response.json()] and [execute()].
    Floats are left out: no tool inspects a number. *)
Inductive value :=
| VNone
| VBool (b : bool)
| VInt (z : Z)
| VStr (s : string)
| VList (l : list value)
| VDict (d : gmap string value).

(** ** Exceptions *)

Inductive pyclass :=
| PyException            (* [Exception] itself, as raised by [raise Exception(...)] *)
| PyKeyError
| PyTypeError
| PyAttributeError
| PyValueError
| PyBinasciiError        (* [binascii.Error], a [ValueError] *)
| PyUnicodeDecodeError
| PyJSONDecodeError
| PyHTTPError            (* [requests.exceptions.HTTPError] *)
| PyOther (name : string)      (* any other subclass of [Exception] *)
| PyBaseOnly (name : string).  (* [KeyboardInterrupt], [SystemExit]: not an [Exception] *)

(** An exception object: its class, [str(e)], and the [__context__] Python
    attaches when it is raised while another exception is being handled. *)
Inductive exn :=
| Exn (cls : pyclass) (msg : string) (context : option exn).

Definition exn_class (e : exn) : pyclass := let 'Exn c _ _ := e in c.
Definition exn_str (e : exn) : string := let 'Exn _ m _ := e in m.
Definition exn_context (e : exn) : option exn := let 'Exn _ _ c := e in c.

(** [isinstance(e, Exception)], the test of [except Exception]. *)
Definition is_Exception (e : exn) : bool :=
  match exn_class e with
  | PyBaseOnly _ => false
  | _ => true
  end.

(** [str(KeyError(k))] is the repr of the key; the keys looked up here are
    literals without quotes or escapes. *)
Definition KeyError (k : string) : exn := Exn PyKeyError ("'" +:+ k +:+ "'") None.
Definition TypeError (m : string) : exn := Exn PyTypeError m None.
Definition AttributeError (m : string) : exn := Exn PyAttributeError m None.

(** ** Results and the effect monad *)

Definition result (A : Type) : Type := exn + A.

#[global] Instance result_ret : MRet result := λ A x, inr x.
#[global] Instance result_bind : MBind result :=
  λ A B f m, match m with inl e => inl e | inr x => f x end.

Record credentials := Credentials {
  cred_info : value;
  cred_scopes : list string
}.

Record service := Service {
  svc_name : string;
  svc_version : string;
  svc_credentials : credentials
}.

(** Calls that leave the tool's own code, one event per call into a
    third-party client.  [EvHttp] is a call of [requests]; [EvBuild] a call of
    [build] (which fetches the discovery document with some versions of the
    client); [EvAppend] a call of [sheet.values().append(...).execute()], whose
    request the client sends only if it accepts the parameters of [append];
    [EvKickoff] the evaluation of [NewsAutomation().crew().kickoff(...)], in
    which the crew may fail while it is built, before kickoff itself runs. *)
Inductive event :=
| EvPrint (text : string)
| EvHttp (method : string) (url : value) (headers : gmap string value) (json : value)
| EvBuild (name version : string) (creds : credentials)
| EvAppend (svc : service) (spreadsheetId : value) (range valueInputOption : string)
           (body : value)
| EvKickoff (inputs : gmap string string).

Definition trace := list event.

Definition M (A : Type) : Type := trace → result A * trace.

#[global] Instance M_ret : MRet M := λ A x t, (inr x, t).
#[global] Instance M_bind : MBind M :=
  λ A B f m t, match m t with
               | (inl e, t') => (inl e, t')
               | (inr x, t') => f x t'
               end.

Definition raise {A} (e : exn) : M A := λ t, (inl e, t).
Definition emit (ev : event) : M unit := λ t, (inr tt, t ++ [ev]).
Definition lift {A} (r : result A) : M A := λ t, (r, t).

(** [try: m except Exception as e: h e] *)
Definition try_except_Exception {A} (m : M A) (h : exn → M A) : M A :=
  λ t, match m t with
       | (inl e, t') => if is_Exception e then h e t' else (inl e, t')
       | (inr x, t') => (inr x, t')
       end.

(** A call from the initial state: nothing has left the tool yet. *)
Definition call {A} (m : M A) : result A * trace := m [].

(** ** The world outside *)

Record response := Response {
  status_code : Z;
  reason : string;
  resp_url : string;
  json_body : result value           (* what [response.json()] gives *)
}.

(** The third-party clients, as oracles.  [None] from a check means the
    client accepted its argument.  [sheets_execute] is the spreadsheet
    service's answer to an append request that was sent; [crew_kickoff] is
    the outcome of the whole expression
    [NewsAutomation().crew().kickoff(inputs=inputs)]. *)
Record world := World {
  requests_request : string → value → gmap string value → value → result response;
  service_account_check : value → list string → option exn;
  discovery_build : string → string → credentials → option exn;
  sheets_execute : service → value → string → string → value → result value;
  crew_kickoff : gmap string string → result value;
  clock_year : Z
}.

(** Pure functions of the Python standard library that are not re-implemented
    here.  [inl msg] stands for the exception the function documents. *)
Class PyStdlib := {
  py_str_other : value → string;                 (* [str(v)] for a non-[str] [v] *)
  ascii_encode_error : string → string;          (* [str] of the [UnicodeEncodeError]
                                                    of [s.encode('ascii')] *)
  a2b_base64 : string → string + list Byte.byte; (* [binascii.Error] *)
  utf8_decode : list Byte.byte → string + string;(* [UnicodeDecodeError] *)
  json_parse : string → string + value           (* [json.JSONDecodeError] *)
}.

(** ** Python operations used by the tools *)

Definition nl : string := String (Ascii.ascii_of_nat 10) EmptyString.

(** [os.environ.get(k)] *)
Definition environ_get (env : gmap string string) (k : string) : value :=
  match env !! k with
  | Some s => VStr s
  | None => VNone
  end.

(** [os.environ[k]] *)
Definition environ_getitem (env : gmap string string) (k : string) : result string :=
  match env !! k with
  | Some s => inr s
  | None => inl (KeyError k)
  end.

(** Truth value of an object, as [not x] and [if x] use it. *)
Definition truthy (v : value) : bool :=
  match v with
  | VNone => false
  | VBool b => b
  | VInt z => negb (z =? 0)
  | VStr s => negb (String.eqb s "")
  | VList l => match l with [] => false | _ => true end
  | VDict d => negb (bool_decide (d = ∅))
  end.

Definition type_name (v : value) : string :=
  match v with
  | VNone => "NoneType"
  | VBool _ => "bool"
  | VInt _ => "int"
  | VStr _ => "str"
  | VList _ => "list"
  | VDict _ => "dict"
  end.

(** [v[k]] with a string key [k] *)
Definition getitem (v : value) (k : string) : result value :=
  match v with
  | VDict d =>
      match d !! k with
      | Some x => inr x
      | None => inl (KeyError k)
      end
  | VStr _ => inl (TypeError "string indices must be integers, not 'str'")
  | VList _ => inl (TypeError "list indices must be integers or slices, not str")
  | _ => inl (TypeError ("'" +:+ type_name v +:+ "' object is not subscriptable"))
  end.

(** [v.get(k)]: only a dict has the method. *)
Definition get (v : value) (k : string) : result value :=
  match v with
  | VDict d => inr (default VNone (d !! k))
  | _ => inl (AttributeError
                ("'" +:+ type_name v +:+ "' object has no attribute 'get'"))
  end.

(** [Response.raise_for_status()]: an [HTTPError] for a 4xx or 5xx status,
    nothing for any other status. *)
Definition raise_for_status (r : response) : result unit :=
  if bool_decide (400 ≤ status_code r < 500) then
    inl (Exn PyHTTPError (pretty (status_code r) +:+ " Client Error: " +:+ reason r
                          +:+ " for url: " +:+ resp_url r) None)
  else if bool_decide (500 ≤ status_code r < 600) then
    inl (Exn PyHTTPError (pretty (status_code r) +:+ " Server Error: " +:+ reason r
                          +:+ " for url: " +:+ resp_url r) None)
  else inr tt.

Definition dquote : string := String (Ascii.ascii_of_nat 34) EmptyString.

(** The parameter check of the Google client's generated method [append]:
    keyword arguments that are [None] are dropped, and a required parameter
    that is then missing is a [TypeError], raised while the request is built
    and before [execute()] sends anything. *)
Definition append_request_check (spreadsheetId : value) : option exn :=
  match spreadsheetId with
  | VNone =>
      Some (TypeError ("Missing required parameter " +:+ dquote +:+ "spreadsheetId"
                       +:+ dquote))
  | _ => None
  end.

(** What [sheet.values().append(...).execute()] gives: the client's refusal
    of the parameters, or else the service's answer to the request. *)
Definition sheets_append (w : world) (svc : service) (spreadsheetId : value)
    (range valueInputOption : string) (body : value) : result value :=
  match append_request_check spreadsheetId with
  | Some e => inl e
  | None => sheets_execute w svc spreadsheetId range valueInputOption body
  end.

(** The world [w] with another spreadsheet service. *)
Definition with_sheets_execute
    (answer : service → value → string → string → value → result value)
    (w : world) : world :=
  {| requests_request := requests_request w;
     service_account_check := service_account_check w;
     discovery_build := discovery_build w;
     sheets_execute := answer;
     crew_kickoff := crew_kickoff w;
     clock_year := clock_year w |}.

Fixpoint is_ascii (s : string) : bool :=
  match s with
  | EmptyString => true
  | String c rest => Nat.ltb (Ascii.nat_of_ascii c) 128 && is_ascii rest
  end.

Section tools.
Context `{PyStdlib}.

(** [format(v, '')] inside an f-string *)
Definition fmt (v : value) : string :=
  match v with
  | VStr s => s
  | _ => py_str_other v
  end.

(** [base64.b64decode(s)] on a [str] argument.  The [ValueError] for a
    non-ASCII string is raised while the [UnicodeEncodeError] of
    [s.encode('ascii')] is being handled, which is its context. *)
Definition b64decode (s : string) : result (list Byte.byte) :=
  if is_ascii s then
    match a2b_base64 s with
    | inl msg => inl (Exn PyBinasciiError msg None)
    | inr b => inr b
    end
  else inl (Exn PyValueError "string argument should contain only ASCII characters"
              (Some (Exn (PyOther "UnicodeEncodeError") (ascii_encode_error s) None))).

(** [b.decode("utf-8")] *)
Definition decode_utf8 (b : list Byte.byte) : result string :=
  match utf8_decode b with
  | inl msg => inl (Exn PyUnicodeDecodeError msg None)
  | inr s => inr s
  end.

(** [json.loads(s)] *)
Definition json_loads (s : string) : result value :=
  match json_parse s with
  | inl msg => inl (Exn PyJSONDecodeError msg None)
  | inr v => inr v
  end.

(** [json.loads(base64.b64decode(secret).decode("utf-8"))] *)
Definition decode_secret (secret : string) : result value :=
  raw ← b64decode secret;
  text ← decode_utf8 raw;
  json_loads text.

Variable env : gmap string string.
Variable w : world.

(** [requests.request(method, url, headers=headers, json=payload)] *)
Definition requests_call (method : string) (url : value)
    (headers : gmap string value) (payload : value) : M response :=
  _ ← emit (EvHttp method url headers payload);
  lift (requests_request w method url headers payload).

(** [requests.post(url, json=payload)] *)
Definition requests_post (url : value) (payload : value) : M response :=
  requests_call "POST" url ∅ payload.

(** [Credentials.from_service_account_info(info, scopes=scopes)] *)
Definition from_service_account_info (info : value) (scopes : list string)
    : M credentials :=
  match service_account_check w info scopes with
  | Some e => raise e
  | None => mret (Credentials info scopes)
  end.

(** [build(name, version, credentials=creds)] *)
Definition build (name version : string) (creds : credentials) : M service :=
  _ ← emit (EvBuild name version creds);
  match discovery_build w name version creds with
  | Some e => raise e
  | None => mret (Service name version creds)
  end.

(** [sheet.values().append(spreadsheetId=.., range=.., valueInputOption=..,
    body=..).execute()] *)
Definition values_append_execute (svc : service) (spreadsheetId : value)
    (range valueInputOption : string) (body : value) : M value :=
  _ ← emit (EvAppend svc spreadsheetId range valueInputOption body);
  lift (sheets_append w svc spreadsheetId range valueInputOption body).

(** *** [NewsFetcherTool] *)

Definition NewsFetcherTool (topic : string) : M value :=
  let url := VStr "https://google.serper.dev/search" in
  let payload := VDict {[ "q" := VStr topic ]} in
  let headers : gmap string value :=
    {[ "X-API-KEY" := environ_get env "SERPER_API_KEY";
       "Content-Type" := VStr "application/json" ]} in
  response ← requests_call "POST" url headers payload;
  lift (json_body response).

(** *** [SlackBotTool] *)

Definition divider : value := VDict {[ "type" := VStr "divider" ]}.

Definition section_block (text : string) : value :=
  VDict {[ "type" := VStr "section";
           "text" := VDict {[ "type" := VStr "mrkdwn"; "text" := VStr text ]} ]}.

(** The body of the [for] loop: the two blocks one item contributes.  The
    f-string reads [url], then [headline], then [summary]. *)
Definition item_blocks (item : value) : result (list value) :=
  url ← getitem item "url";
  headline ← getitem item "headline";
  summary ← getitem item "summary";
  mret [ section_block ("*<" +:+ fmt url +:+ "|" +:+ fmt headline +:+ ">*" +:+ nl
                        +:+ fmt summary);
         divider ].

(** [for item in summaries: blocks.extend([...])] *)
Fixpoint extend_blocks (summaries : list value) (blocks : list value)
    : result (list value) :=
  match summaries with
  | [] => inr blocks
  | item :: rest =>
      new ← item_blocks item;
      extend_blocks rest (blocks ++ new)
  end.

(** [channel] has the default value ["#general"]; a call without it is a call
    with [default_channel]. *)
Definition default_channel : string := "#general".

Definition SlackBotTool (summaries : list value) (channel : string) : M value :=
  let webhook_url := environ_get env "SLACK_WEBHOOK_URL" in
  if negb (truthy webhook_url) then
    raise (Exn PyException "Missing SLACK_WEBHOOK_URL in environment variables" None)
  else
    blocks ← lift (extend_blocks summaries []);
    let payload := VDict {[ "channel" := VStr channel; "blocks" := VList blocks ]} in
    response ← requests_post webhook_url payload;
    _ ← lift (raise_for_status response);
    mret (VDict {[ "status" := VStr "sent";
                   "count" := VInt (Z.of_nat (length summaries)) ]}).

(** *** [GoogleSheetsLogger] *)

(** [[item["date"], item["headline"], item["summary"], item["url"]]] *)
Definition item_row (item : value) : result value :=
  date ← getitem item "date";
  headline ← getitem item "headline";
  summary ← getitem item "summary";
  url ← getitem item "url";
  mret (VList [date; headline; summary; url]).

(** [for item in news_items: rows.append([...])] *)
Fixpoint append_rows (news_items : list value) (rows : list value)
    : result (list value) :=
  match news_items with
  | [] => inr rows
  | item :: rest =>
      row ← item_row item;
      append_rows rest (rows ++ [row])
  end.

Definition GoogleSheetsLogger (news_items : list value) : M value :=
  let SCOPES := ["https://www.googleapis.com/auth/spreadsheets"] in
  info ← lift (secret ← environ_getitem env "GCP_CREDENTIALS_B64";
               decode_secret secret);
  creds ← from_service_account_info info SCOPES;
  sheet ← build "sheets" "v4" creds;
  let SPREADSHEET_ID := environ_get env "SPREADSHEET_ID" in
  let RANGE := "Sheet1!A:D" in
  rows ← lift (append_rows news_items []);
  let body := VDict {[ "values" := VList rows ]} in
  result ← values_append_execute sheet SPREADSHEET_ID RANGE "RAW" body;
  updates ← lift (get result "updates");
  updatedRows ← lift (get updates "updatedRows");
  mret (VDict {[ "status" := VStr "logged"; "rows_added" := updatedRows ]}).

(** *** [run] of [main.py] *)

(** [NewsAutomation().crew().kickoff(inputs=inputs)]: the event marks the
    evaluation of the whole expression, the oracle gives its outcome. *)
Definition kickoff (inputs : gmap string string) : M value :=
  _ ← emit (EvKickoff inputs);
  lift (crew_kickoff w inputs).

Definition run : M value :=
  _ ← emit (EvPrint "CrewAI started!");
  let inputs : gmap string string :=
    {[ "topic" := "Artificial Intelligence and Tech";
       "current_year" := pretty (clock_year w) ]} in
  try_except_Exception
    (_ ← kickoff inputs; mret VNone)
    (λ e, raise (Exn PyException
                   ("An error occurred while running the crew: " +:+ exn_str e)
                   (Some e))).

End tools.



(** ** Well-formed news items *)

Definition has_key (k : string) (item : value) : bool :=
  match item with
  | VDict d => bool_decide (is_Some (d !! k))
  | _ => false
  end.

(** What the chat tool reads from an item. *)
Definition slack_item_ok (item : value) : bool :=
  has_key "url" item && has_key "headline" item && has_key "summary" item.

(** What the spreadsheet tool reads from an item. *)
Definition sheet_item_ok (item : value) : bool :=
  has_key "date" item && has_key "headline" item && has_key "summary" item
  && has_key "url" item.

(** The value of a field that is present. *)
Definition field (item : value) (k : string) : value :=
  match getitem item k with
  | inr x => x
  | inl _ => VNone
  end.

(** ** What the tools send and answer, for well-formed input *)

(** The two blocks of a well-formed item. *)
Definition blocks_of `{PyStdlib} (item : value) : list value :=
  [ section_block ("*<" +:+ fmt (field item "url") +:+ "|"
                   +:+ fmt (field item "headline") +:+ ">*" +:+ nl
                   +:+ fmt (field item "summary"));
    divider ].

(** The request body of the chat tool for a well-formed batch. *)
Definition slack_payload `{PyStdlib} (channel : string) (summaries : list value)
    : value :=
  VDict {[ "channel" := VStr channel;
           "blocks" := VList (concat (map blocks_of summaries)) ]}.

Definition sent (n : nat) : value :=
  VDict {[ "status" := VStr "sent"; "count" := VInt (Z.of_nat n) ]}.

Definition row_of (item : value) : value :=
  VList [field item "date"; field item "headline"; field item "summary";
         field item "url"].

(** The request body of the spreadsheet tool for a well-formed batch. *)
Definition sheets_body (news_items : list value) : value :=
  VDict {[ "values" := VList (map row_of news_items) ]}.

Definition logged (rows_added : value) : value :=
  VDict {[ "status" := VStr "logged"; "rows_added" := rows_added ]}.

Definition SCOPES : list string := ["https://www.googleapis.com/auth/spreadsheets"].

Definition sheets_credentials (info : value) : credentials := Credentials info SCOPES.

Definition sheets_service (info : value) : service :=
  Service "sheets" "v4" (sheets_credentials info).

(** The secret is there, decodes to [info], and the Google client accepts it. *)
Definition credentials_ready `{PyStdlib} (env : gmap string string) (w : world)
    (info : value) : Prop :=
  (∃ secret, env !! "GCP_CREDENTIALS_B64" = Some secret
             ∧ decode_secret secret = inr info)
  ∧ service_account_check w info SCOPES = None
  ∧ discovery_build w "sheets" "v4" (sheets_credentials info) = None.

Definition serper_headers (api_key : value) : gmap string value :=
  {[ "X-API-KEY" := api_key; "Content-Type" := VStr "application/json" ]}.

Definition run_inputs (w : world) : gmap string string :=
  {[ "topic" := "Artificial Intelligence and Tech";
     "current_year" := pretty (clock_year w) ]}.

(** ** Sample data *)

(** A standard library that knows one secret: ["e30="] is base64 for ["{}"]. *)
Definition sample_stdlib : PyStdlib :=
  {| py_str_other := λ _, "None";
     ascii_encode_error := λ _, "'ascii' codec can't encode character";
     a2b_base64 := λ s,
       if String.eqb s "e30=" then inr [Byte.x7b; Byte.x7d]
       else inl "Incorrect padding";
     utf8_decode := λ b,
       match b with
       | [Byte.x7b; Byte.x7d] => inr "{}"
       | _ => inl "'utf-8' codec can't decode bytes"
       end;
     json_parse := λ s,
       if String.eqb s "{}" then inr (VDict ∅)
       else inl "Expecting value: line 1 column 1 (char 0)" |}.

(** A world whose HTTP server answers every request with [status], whose
    Google client accepts every credential, whose spreadsheet service answers
    every append request with [reply], and whose crew ends in [outcome]. *)
Definition sample_world (status : Z) (reply outcome : result value) : world :=
  {| requests_request := λ _ url _ _,
       inr (Response status "" (match url with VStr u => u | _ => "" end)
              (inr (VDict {[ "message" := VStr "Unauthorized." ]})));
     service_account_check := λ _ _, None;
     discovery_build := λ _ _ _, None;
     sheets_execute := λ _ _ _ _ _, reply;
     crew_kickoff := λ _, outcome;
     clock_year := 2026 |}.

Definition sample_env : gmap string string :=
  {[ "SERPER_API_KEY" := "serper-key";
     "SLACK_WEBHOOK_URL" := "https://hooks.slack.com/services/T0/B0/x";
     "GCP_CREDENTIALS_B64" := "e30=";
     "SPREADSHEET_ID" := "sheet-1" ]}.

Definition sample_item : value :=
  VDict {[ "date" := VStr "2024-01-01"; "headline" := VStr "X";
           "summary" := VStr "Y"; "url" := VStr "http://z" ]}.

(** The reply of the spreadsheet service to an append of [n] rows. *)
Definition append_reply (n : Z) : value :=
  VDict {[ "spreadsheetId" := VStr "sheet-1";
           "updates" := VDict {[ "spreadsheetId" := VStr "sheet-1";
                                 "updatedRows" := VInt n ]} ]}.

(** A reply in which the service left the row count out. *)
Definition append_reply_no_count : value :=
  VDict {[ "spreadsheetId" := VStr "sheet-1";
           "updates" := VDict {[ "spreadsheetId" := VStr "sheet-1" ]} ]}.

(** ** Reading items *)

(** The first of [keys], in order, that the dict [d] does not have: the key a
    sequence of subscriptions [d[k1]], [d[k2]], ... fails on. *)
Fixpoint first_missing (keys : list string) (d : gmap string value) : option string :=
  match keys with
  | [] => None
  | k :: rest =>
      match d !! k with
      | None => Some k
      | Some _ => first_missing rest d
      end
  end.

(** Two objects answer the subscriptions by [keys] alike. *)
Definition agree_on (keys : list string) (a b : value) : Prop :=
  Forall (λ k, getitem a k = getitem b k) keys.

Definition is_dict (v : value) : bool :=
  match v with
  | VDict _ => true
  | _ => false
  end.

(** The mrkdwn text of the section block for given field values. *)
Definition section_text `{PyStdlib} (url headline summary : value) : string :=
  "*<" +:+ fmt url +:+ "|" +:+ fmt headline +:+ ">*" +:+ nl +:+ fmt summary.

Arguments sheets_append : simpl never.

(** ** Basic facts *)

(** Unfolding of the monad operations at a given trace. *)
Ltac run_monad :=
  unfold call, requests_post, requests_call, values_append_execute, build,
    from_service_account_info, kickoff, try_except_Exception, lift, raise, emit,
    mbind, mret, M_bind, M_ret, result_bind, result_ret; simpl.

Lemma getitem_has_key item k :
  has_key k item = true → getitem item k = inr (field item k).
Proof.
  unfold field. destruct item; simpl; try discriminate.
  intros Hk. apply bool_decide_eq_true in Hk as [x Hx]. by rewrite Hx.
Qed.

Lemma getitem_no_key item k :
  has_key k item = false → ∃ e, getitem item k = inl e.
Proof.
  destruct item; simpl; eauto.
  intros Hk. apply bool_decide_eq_false in Hk.
  destruct (d !! k) eqn:E; [|eauto].
  exfalso. apply Hk. eauto.
Qed.

Lemma raise_for_status_error r :
  400 ≤ status_code r < 600 →
  ∃ e, raise_for_status r = inl e ∧ exn_class e = PyHTTPError.
Proof.
  intros Hs. unfold raise_for_status.
  destruct (bool_decide (400 ≤ status_code r < 500)) eqn:E1; [eauto|].
  apply bool_decide_eq_false in E1.
  rewrite bool_decide_eq_true_2 by lia. eauto.
Qed.

Lemma raise_for_status_pass r :
  ¬ (400 ≤ status_code r < 600) → raise_for_status r = inr tt.
Proof.
  intros Hs. unfold raise_for_status.
  rewrite !bool_decide_eq_false_2 by lia. done.
Qed.

Lemma item_row_ok item :
  sheet_item_ok item = true → item_row item = inr (row_of item).
Proof.
  unfold sheet_item_ok, item_row, row_of.
  intros [[[Hd Hh]%andb_prop Hs]%andb_prop Hu]%andb_prop.
  by rewrite (getitem_has_key _ _ Hd), (getitem_has_key _ _ Hh),
    (getitem_has_key _ _ Hs), (getitem_has_key _ _ Hu).
Qed.

Lemma append_rows_ok news_items rows :
  Forall (λ item, sheet_item_ok item = true) news_items →
  append_rows news_items rows = inr (rows ++ map row_of news_items).
Proof.
  intros Hall. revert rows.
  induction Hall as [|item rest Hitem _ IH]; intros rows; simpl.
  - by rewrite app_nil_r.
  - rewrite (item_row_ok _ Hitem). simpl. rewrite IH. by rewrite <- app_assoc.
Qed.

Lemma row_of_lookup news_items i item :
  news_items !! i = Some item → map row_of news_items !! i = Some (row_of item).
Proof. intros Hi. by rewrite list_lookup_fmap, Hi. Qed.

(** ** The chat tool *)

Section slack_facts.
Context `{PyStdlib}.
Variable env : gmap string string.
Variable w : world.

Lemma item_blocks_ok item :
  slack_item_ok item = true → item_blocks item = inr (blocks_of item).
Proof.
  unfold slack_item_ok, item_blocks, blocks_of.
  intros [[Hu Hh]%andb_prop Hs]%andb_prop.
  by rewrite (getitem_has_key _ _ Hu), (getitem_has_key _ _ Hh),
    (getitem_has_key _ _ Hs).
Qed.

Lemma item_blocks_bad item :
  slack_item_ok item = false → ∃ e, item_blocks item = inl e.
Proof.
  unfold slack_item_ok, item_blocks. intros Hbad.
  destruct (has_key "url" item) eqn:Hu.
  - rewrite (getitem_has_key _ _ Hu). simpl.
    destruct (has_key "headline" item) eqn:Hh.
    + rewrite (getitem_has_key _ _ Hh). simpl.
      simpl in Hbad. destruct (getitem_no_key _ _ Hbad) as [e ->]. by exists e.
    + destruct (getitem_no_key _ _ Hh) as [e ->]. by exists e.
  - destruct (getitem_no_key _ _ Hu) as [e ->]. by exists e.
Qed.

Lemma extend_blocks_ok summaries blocks :
  Forall (λ item, slack_item_ok item = true) summaries →
  extend_blocks summaries blocks = inr (blocks ++ concat (map blocks_of summaries)).
Proof.
  intros Hall. revert blocks.
  induction Hall as [|item rest Hitem _ IH]; intros blocks; simpl.
  - by rewrite app_nil_r.
  - rewrite (item_blocks_ok _ Hitem). simpl. rewrite IH. by rewrite <- app_assoc.
Qed.

Lemma extend_blocks_bad summaries blocks :
  Exists (λ item, slack_item_ok item = false) summaries →
  ∃ e, extend_blocks summaries blocks = inl e.
Proof.
  intros Hex. revert blocks.
  induction Hex as [item rest Hbad | item rest _ IH]; intros blocks; simpl.
  - destruct (item_blocks_bad _ Hbad) as [e ->]. by exists e.
  - destruct (item_blocks item) as [e|new]; simpl; eauto.
Qed.

Lemma webhook_truthy u :
  env !! "SLACK_WEBHOOK_URL" = Some u → u ≠ "" →
  environ_get env "SLACK_WEBHOOK_URL" = VStr u ∧ truthy (VStr u) = true.
Proof.
  intros Hu Hne. unfold environ_get. rewrite Hu. split; [done|].
  simpl. by apply negb_true_iff, String.eqb_neq.
Qed.

(** With the webhook configured and a well-formed batch, the chat tool
    makes one POST with the whole payload; its outcome is that of the
    request followed by [raise_for_status]. *)
Lemma SlackBotTool_call summaries channel u :
  env !! "SLACK_WEBHOOK_URL" = Some u → u ≠ "" →
  Forall (λ item, slack_item_ok item = true) summaries →
  call (SlackBotTool env w summaries channel) =
    (r ← requests_request w "POST" (VStr u) ∅ (slack_payload channel summaries);
     _ ← raise_for_status r;
     mret (sent (length summaries)),
     [EvHttp "POST" (VStr u) ∅ (slack_payload channel summaries)]).
Proof.
  intros Hu Hne Hall. destruct (webhook_truthy u Hu Hne) as [Hget Htrue].
  unfold SlackBotTool. rewrite Hget, Htrue. simpl negb. cbv iota.
  run_monad. rewrite (extend_blocks_ok _ _ Hall). simpl.
  fold (slack_payload channel summaries).
  destruct (requests_request w "POST" (VStr u) ∅ (slack_payload channel summaries))
    as [e|r]; [done|].
  by destruct (raise_for_status r) as [e|[]].
Qed.

(** A batch with a malformed item is rejected while the blocks are built. *)
Lemma SlackBotTool_malformed summaries channel u :
  env !! "SLACK_WEBHOOK_URL" = Some u → u ≠ "" →
  Exists (λ item, slack_item_ok item = false) summaries →
  ∃ e, extend_blocks summaries [] = inl e ∧
       call (SlackBotTool env w summaries channel) = (inl e, []).
Proof.
  intros Hu Hne Hex. destruct (webhook_truthy u Hu Hne) as [Hget Htrue].
  destruct (extend_blocks_bad _ [] Hex) as [e He]. exists e. split; [done|].
  unfold SlackBotTool. rewrite Hget, Htrue. simpl negb. cbv iota.
  run_monad. by rewrite He.
Qed.

(** Whatever the tool returns is the confirmation for the whole batch. *)
Lemma SlackBotTool_returns_only_sent summaries channel v t :
  call (SlackBotTool env w summaries channel) = (inr v, t) →
  v = sent (length summaries).
Proof.
  unfold SlackBotTool.
  destruct (negb (truthy (environ_get env "SLACK_WEBHOOK_URL"))); [done|].
  run_monad.
  destruct (extend_blocks summaries []) as [e|blocks]; [done|].
  destruct (requests_request _ _ _ _ _) as [e|r]; [done|].
  destruct (raise_for_status r) as [e|[]]; [done|].
  by intros [= <- _].
Qed.

End slack_facts.

(** ** The spreadsheet tool *)

Section logger_facts.
Context `{PyStdlib}.
Variable env : gmap string string.
Variable w : world.

(** With working credentials and a well-formed batch, the spreadsheet tool
    builds the client, makes one append call with all rows, and reads the
    row count out of the reply. *)
Lemma GoogleSheetsLogger_call news_items info :
  credentials_ready env w info →
  Forall (λ item, sheet_item_ok item = true) news_items →
  call (GoogleSheetsLogger env w news_items) =
    (reply ← sheets_append w (sheets_service info) (environ_get env "SPREADSHEET_ID")
               "Sheet1!A:D" "RAW" (sheets_body news_items);
     updates ← get reply "updates";
     updatedRows ← get updates "updatedRows";
     mret (logged updatedRows),
     [EvBuild "sheets" "v4" (sheets_credentials info);
      EvAppend (sheets_service info) (environ_get env "SPREADSHEET_ID")
        "Sheet1!A:D" "RAW" (sheets_body news_items)]).
Proof.
  intros [(secret & Hsecret & Hdec) [Hacc Hbuild]] Hall.
  unfold GoogleSheetsLogger, environ_getitem. rewrite Hsecret.
  run_monad. rewrite Hdec. fold SCOPES. rewrite Hacc.
  fold (sheets_credentials info). rewrite Hbuild.
  rewrite (append_rows_ok _ _ Hall). simpl.
  fold (sheets_body news_items). fold (sheets_service info).
  destruct (sheets_append _ _ _ _ _ _) as [e|reply]; [done|].
  destruct (get reply "updates") as [e|updates]; [done|].
  by destruct (get updates "updatedRows") as [e|n].
Qed.

(** A failure while the secret is read and decoded ends the call at once. *)
Lemma GoogleSheetsLogger_no_info news_items e :
  (secret ← environ_getitem env "GCP_CREDENTIALS_B64"; decode_secret secret) = inl e →
  call (GoogleSheetsLogger env w news_items) = (inl e, []).
Proof.
  intros He. unfold GoogleSheetsLogger. run_monad.
  unfold mbind, result_bind in He. by rewrite He.
Qed.

Lemma decode_secret_error_class secret e :
  decode_secret secret = inl e →
  exn_class e ∈ [PyValueError; PyBinasciiError; PyUnicodeDecodeError;
                 PyJSONDecodeError].
Proof.
  unfold decode_secret, b64decode, decode_utf8, json_loads.
  unfold mbind, result_bind.
  destruct (is_ascii secret).
  - destruct (a2b_base64 secret) as [m|raw].
    + intros [= <-]. simpl. set_solver.
    + destruct (utf8_decode raw) as [m|text].
      * intros [= <-]. simpl. set_solver.
      * destruct (json_parse text) as [m|v]; [|done].
        intros [= <-]. simpl. set_solver.
  - intros [= <-]. simpl. set_solver.
Qed.

End logger_facts.


(** ** Properties of the tools *)

(** C1: for a well-formed sequence of news items, with the webhook configured
    and a reply that is not an HTTP error, [SlackBotTool] returns the
    confirmation [{"status": "sent", "count": n}] where [n] is the length of
    the input sequence; for the empty sequence the count is 0. *)
Theorem SlackBotTool_count_is_length `{PyStdlib} env w summaries channel u r :
  env !! "SLACK_WEBHOOK_URL" = Some u → u ≠ "" →
  Forall (λ item, slack_item_ok item = true) summaries →
  requests_request w "POST" (VStr u) ∅ (slack_payload channel summaries) = inr r →
  ¬ (400 ≤ status_code r < 600) →
  (call (SlackBotTool env w summaries channel)).1 =
    inr (VDict {[ "status" := VStr "sent";
                  "count" := VInt (Z.of_nat (length summaries)) ]})
  ∧ (summaries = [] →
     (call (SlackBotTool env w summaries channel)).1 =
       inr (VDict {[ "status" := VStr "sent"; "count" := VInt 0 ]})).
Proof.
  intros Hu Hne Hall Hr Hstatus.
  rewrite (SlackBotTool_call env w summaries channel u Hu Hne Hall).
  rewrite Hr. simpl. rewrite (raise_for_status_pass r Hstatus). simpl.
  split; [done|]. by intros ->.
Qed.

Lemma SlackBotTool_count_is_length_witness :
  (call (SlackBotTool (H:=sample_stdlib) sample_env
           (sample_world 200 (inr VNone) (inr VNone)) [sample_item; sample_item]
           "#general")).1 =
    inr (VDict {[ "status" := VStr "sent"; "count" := VInt 2 ]}).
Proof.
  refine (proj1 (SlackBotTool_count_is_length (H:=sample_stdlib) sample_env
                   (sample_world 200 (inr VNone) (inr VNone))
                   [sample_item; sample_item] "#general"
                   "https://hooks.slack.com/services/T0/B0/x"
                   (Response 200 "" "https://hooks.slack.com/services/T0/B0/x"
                      (inr (VDict {[ "message" := VStr "Unauthorized." ]})))
                   _ _ _ _ _)).
  - reflexivity.
  - discriminate.
  - repeat constructor.
  - reflexivity.
  - simpl. lia.
Defined.

(** C2: for a well-formed sequence of news items (and working credentials),
    [GoogleSheetsLogger] sends one row per item, row [i] built from item [i],
    and every row is the four columns [date, headline, summary, url] in that
    order. *)
Theorem GoogleSheetsLogger_rows `{PyStdlib} env w news_items info :
  credentials_ready env w info →
  Forall (λ item, sheet_item_ok item = true) news_items →
  ∃ rows,
    (call (GoogleSheetsLogger env w news_items)).2 =
      [EvBuild "sheets" "v4" (sheets_credentials info);
       EvAppend (sheets_service info) (environ_get env "SPREADSHEET_ID")
         "Sheet1!A:D" "RAW" (VDict {[ "values" := VList rows ]})]
    ∧ length rows = length news_items
    ∧ ∀ i item, news_items !! i = Some item →
        ∃ d date headline summary url,
          item = VDict d
          ∧ d !! "date" = Some date ∧ d !! "headline" = Some headline
          ∧ d !! "summary" = Some summary ∧ d !! "url" = Some url
          ∧ rows !! i = Some (VList [date; headline; summary; url]).
Proof.
  intros Hready Hall. exists (map row_of news_items).
  rewrite (GoogleSheetsLogger_call env w news_items info Hready Hall).
  split; [done|]. split; [by rewrite length_map|].
  intros i item Hi.
  assert (Hok : sheet_item_ok item = true).
  { rewrite Forall_lookup in Hall. by apply (Hall i). }
  rewrite (row_of_lookup _ _ _ Hi).
  unfold sheet_item_ok in Hok.
  destruct item as [| | | | |d]; try discriminate Hok.
  apply andb_prop in Hok as [[[Hd Hh]%andb_prop Hs]%andb_prop Hurl].
  simpl in Hd, Hh, Hs, Hurl.
  apply bool_decide_eq_true in Hd as [date Hd], Hh as [headline Hh],
    Hs as [summary Hs], Hurl as [url Hurl].
  exists d, date, headline, summary, url.
  repeat (split; [done|]).
  unfold row_of, field. simpl. by rewrite Hd, Hh, Hs, Hurl.
Qed.

Lemma GoogleSheetsLogger_rows_witness :
  ∃ rows,
    (call (GoogleSheetsLogger (H:=sample_stdlib) sample_env
             (sample_world 200 (inr (append_reply 1)) (inr VNone)) [sample_item])).2 =
      [EvBuild "sheets" "v4" (sheets_credentials (VDict ∅));
       EvAppend (sheets_service (VDict ∅)) (VStr "sheet-1")
         "Sheet1!A:D" "RAW" (VDict {[ "values" := VList rows ]})]
    ∧ rows = [VList [VStr "2024-01-01"; VStr "X"; VStr "Y"; VStr "http://z"]].
Proof.
  destruct (GoogleSheetsLogger_rows (H:=sample_stdlib) sample_env
              (sample_world 200 (inr (append_reply 1)) (inr VNone)) [sample_item]
              (VDict ∅)) as (rows & Htrace & Hlen & Hrows).
  - split; [|split; reflexivity]. exists "e30=". split; reflexivity.
  - repeat constructor.
  - exists rows. split; [exact Htrace|].
    destruct (Hrows 0%nat sample_item eq_refl)
      as (d & date & headline & summary & url & Hitem & Hd & Hh & Hs & Hu & Hrow).
    injection Hitem as <-.
    vm_compute in Hd, Hh, Hs, Hu.
    injection Hd as <-. injection Hh as <-. injection Hs as <-. injection Hu as <-.
    destruct rows as [|row [|row' rows]]; try discriminate Hlen.
    simpl in Hrow. by injection Hrow as ->.
Defined.

(** C4: when [SLACK_WEBHOOK_URL] is absent from the environment,
    [SlackBotTool] raises its missing-configuration exception for every input
    sequence, and the trace of outside calls is empty: no HTTP request has
    been attempted. *)
Theorem SlackBotTool_missing_webhook `{PyStdlib} env w summaries channel :
  env !! "SLACK_WEBHOOK_URL" = None →
  call (SlackBotTool env w summaries channel) =
    (inl (Exn PyException "Missing SLACK_WEBHOOK_URL in environment variables" None),
     []).
Proof.
  intros Hnone. unfold SlackBotTool, environ_get. by rewrite Hnone.
Qed.

Lemma SlackBotTool_missing_webhook_witness :
  call (SlackBotTool (H:=sample_stdlib) (delete "SLACK_WEBHOOK_URL" sample_env)
          (sample_world 200 (inr VNone) (inr VNone)) [sample_item] "#general") =
    (inl (Exn PyException "Missing SLACK_WEBHOOK_URL in environment variables" None),
     []).
Proof.
  apply (SlackBotTool_missing_webhook (H:=sample_stdlib)). reflexivity.
Defined.

(** C3: what [NewsFetcherTool] does when [SERPER_API_KEY] is absent.  It
    raises nothing of its own: it sends the POST to the search service with
    the header [X-API-KEY] set to [None], and its outcome is that of the
    request and of [response.json()]. *)
Theorem NewsFetcherTool_without_key env w topic :
  env !! "SERPER_API_KEY" = None →
  call (NewsFetcherTool env w topic) =
    (response ← requests_request w "POST" (VStr "https://google.serper.dev/search")
                  (serper_headers VNone) (VDict {[ "q" := VStr topic ]});
     json_body response,
     [EvHttp "POST" (VStr "https://google.serper.dev/search")
        (serper_headers VNone) (VDict {[ "q" := VStr topic ]})]).
Proof.
  intros Hnone. unfold NewsFetcherTool, environ_get. rewrite Hnone.
  fold (serper_headers VNone). run_monad.
  by destruct (requests_request _ _ _ _ _) as [e|r].
Qed.

Lemma NewsFetcherTool_without_key_witness :
  call (NewsFetcherTool (delete "SERPER_API_KEY" sample_env)
          (sample_world 403 (inr VNone) (inr VNone)) "AI") =
    (inr (VDict {[ "message" := VStr "Unauthorized." ]}),
     [EvHttp "POST" (VStr "https://google.serper.dev/search")
        (serper_headers VNone) (VDict {[ "q" := VStr "AI" ]})]).
Proof.
  apply (NewsFetcherTool_without_key (delete "SERPER_API_KEY" sample_env)
           (sample_world 403 (inr VNone) (inr VNone)) "AI").
  reflexivity.
Defined.

(** C5, as the claim states it, fails: the webhook answers a well-formed
    one-item batch with status 304, which is not a 2xx status, and
    [SlackBotTool] returns the success confirmation with count 1. *)
Lemma SlackBotTool_non_2xx_counterexample :
  ∃ r,
    requests_request (sample_world 304 (inr VNone) (inr VNone)) "POST"
      (VStr "https://hooks.slack.com/services/T0/B0/x") ∅
      (slack_payload (H:=sample_stdlib) "#general" [sample_item]) = inr r
    ∧ ¬ (200 ≤ status_code r < 300)
    ∧ (call (SlackBotTool (H:=sample_stdlib) sample_env
               (sample_world 304 (inr VNone) (inr VNone)) [sample_item]
               "#general")).1 =
        inr (VDict {[ "status" := VStr "sent"; "count" := VInt 1 ]}).
Proof.
  eexists. split; [reflexivity|]. split; [simpl; lia|]. reflexivity.
Qed.

(** C5, amended: for a well-formed sequence and a configured webhook,
    [SlackBotTool] makes exactly one HTTP request, a POST whose body carries
    the blocks of the whole batch.  If the reply has a 4xx or 5xx status the
    tool raises an [HTTPError] and returns no count; if the request itself
    fails the tool raises that failure; a reply with any other status is
    answered with the confirmation. *)
Theorem SlackBotTool_one_request `{PyStdlib} env w summaries channel u :
  env !! "SLACK_WEBHOOK_URL" = Some u → u ≠ "" →
  Forall (λ item, slack_item_ok item = true) summaries →
  (call (SlackBotTool env w summaries channel)).2 =
    [EvHttp "POST" (VStr u) ∅ (slack_payload channel summaries)]
  ∧ match requests_request w "POST" (VStr u) ∅ (slack_payload channel summaries) with
    | inl e => (call (SlackBotTool env w summaries channel)).1 = inl e
    | inr r =>
        if bool_decide (400 ≤ status_code r < 600) then
          ∃ e, (call (SlackBotTool env w summaries channel)).1 = inl e
               ∧ exn_class e = PyHTTPError
        else
          (call (SlackBotTool env w summaries channel)).1 =
            inr (VDict {[ "status" := VStr "sent";
                          "count" := VInt (Z.of_nat (length summaries)) ]})
    end.
Proof.
  intros Hu Hne Hall.
  rewrite (SlackBotTool_call env w summaries channel u Hu Hne Hall).
  split; [done|]. simpl.
  destruct (requests_request _ _ _ _ _) as [e|r]; [done|]. simpl.
  case_bool_decide as Hs.
  - destruct (raise_for_status_error r Hs) as (e & -> & Hcls). by exists e.
  - by rewrite (raise_for_status_pass r Hs).
Qed.

Lemma SlackBotTool_one_request_witness :
  (call (SlackBotTool (H:=sample_stdlib) sample_env
           (sample_world 404 (inr VNone) (inr VNone)) [sample_item] "#general")).2 =
    [EvHttp "POST" (VStr "https://hooks.slack.com/services/T0/B0/x") ∅
       (slack_payload (H:=sample_stdlib) "#general" [sample_item])]
  ∧ ∃ e, (call (SlackBotTool (H:=sample_stdlib) sample_env
                  (sample_world 404 (inr VNone) (inr VNone)) [sample_item]
                  "#general")).1 = inl e
         ∧ exn_class e = PyHTTPError.
Proof.
  refine (SlackBotTool_one_request (H:=sample_stdlib) sample_env
            (sample_world 404 (inr VNone) (inr VNone)) [sample_item] "#general"
            "https://hooks.slack.com/services/T0/B0/x" _ _ _).
  - reflexivity.
  - discriminate.
  - repeat constructor.
Defined.

(** C6, as the claim states it, fails for the logger: with working
    configuration and the empty sequence, the spreadsheet service answers the
    append without an [updatedRows] field, and [GoogleSheetsLogger] returns
    [rows_added: None], not [rows_added: 0]. *)
Lemma GoogleSheetsLogger_empty_counterexample :
  (call (GoogleSheetsLogger (H:=sample_stdlib) sample_env
           (sample_world 200 (inr append_reply_no_count) (inr VNone)) [])).1 =
    inr (VDict {[ "status" := VStr "logged"; "rows_added" := VNone ]})
  ∧ VDict {[ "status" := VStr "logged"; "rows_added" := VNone ]}
    ≠ VDict {[ "status" := VStr "logged"; "rows_added" := VInt 0 ]}.
Proof.
  split; [reflexivity|].
  intros Heq.
  apply (f_equal (λ v, match v with VDict m => m !! "rows_added" | _ => None end))
    in Heq.
  vm_compute in Heq. discriminate Heq.
Qed.

(** C6, amended: for the empty sequence, with the webhook configured and a
    reply that is not an HTTP error, [SlackBotTool] posts one request whose
    block list is empty and returns count 0; with working credentials,
    [GoogleSheetsLogger] makes one append call whose row list is empty and
    returns as [rows_added] the [updatedRows] entry of the [updates] object
    of the service's reply, [None] when the entry is missing: the count is 0
    when the service reports 0.  Neither tool raises. *)
Theorem empty_sequence `{PyStdlib} env w channel u r info reply updates :
  env !! "SLACK_WEBHOOK_URL" = Some u → u ≠ "" →
  requests_request w "POST" (VStr u) ∅
    (VDict {[ "channel" := VStr channel; "blocks" := VList [] ]}) = inr r →
  ¬ (400 ≤ status_code r < 600) →
  credentials_ready env w info →
  sheets_append w (sheets_service info) (environ_get env "SPREADSHEET_ID")
    "Sheet1!A:D" "RAW" (VDict {[ "values" := VList [] ]}) = inr (VDict reply) →
  reply !! "updates" = Some (VDict updates) →
  call (SlackBotTool env w [] channel) =
    (inr (VDict {[ "status" := VStr "sent"; "count" := VInt 0 ]}),
     [EvHttp "POST" (VStr u) ∅
        (VDict {[ "channel" := VStr channel; "blocks" := VList [] ]})])
  ∧ call (GoogleSheetsLogger env w []) =
      (inr (VDict {[ "status" := VStr "logged";
                     "rows_added" := default VNone (updates !! "updatedRows") ]}),
       [EvBuild "sheets" "v4" (sheets_credentials info);
        EvAppend (sheets_service info) (environ_get env "SPREADSHEET_ID")
          "Sheet1!A:D" "RAW" (VDict {[ "values" := VList [] ]})]).
Proof.
  intros Hu Hne Hr Hstatus Hready Hreply Hupdates. split.
  - rewrite (SlackBotTool_call env w [] channel u Hu Hne (Forall_nil_2 _)).
    unfold slack_payload. simpl. rewrite Hr. simpl.
    by rewrite (raise_for_status_pass r Hstatus).
  - rewrite (GoogleSheetsLogger_call env w [] info Hready (Forall_nil_2 _)).
    unfold sheets_body. simpl. rewrite Hreply. simpl. by rewrite Hupdates.
Qed.

Lemma empty_sequence_witness :
  call (SlackBotTool (H:=sample_stdlib) sample_env
          (sample_world 200 (inr (append_reply 0)) (inr VNone)) [] "#general") =
    (inr (VDict {[ "status" := VStr "sent"; "count" := VInt 0 ]}),
     [EvHttp "POST" (VStr "https://hooks.slack.com/services/T0/B0/x") ∅
        (VDict {[ "channel" := VStr "#general"; "blocks" := VList [] ]})])
  ∧ call (GoogleSheetsLogger (H:=sample_stdlib) sample_env
            (sample_world 200 (inr (append_reply 0)) (inr VNone)) []) =
      (inr (VDict {[ "status" := VStr "logged"; "rows_added" := VInt 0 ]}),
       [EvBuild "sheets" "v4" (sheets_credentials (VDict ∅));
        EvAppend (sheets_service (VDict ∅)) (VStr "sheet-1")
          "Sheet1!A:D" "RAW" (VDict {[ "values" := VList [] ]})]).
Proof.
  refine (empty_sequence (H:=sample_stdlib) sample_env
            (sample_world 200 (inr (append_reply 0)) (inr VNone)) "#general"
            "https://hooks.slack.com/services/T0/B0/x"
            (Response 200 "" "https://hooks.slack.com/services/T0/B0/x"
               (inr (VDict {[ "message" := VStr "Unauthorized." ]})))
            (VDict ∅)
            {[ "spreadsheetId" := VStr "sheet-1";
               "updates" := VDict {[ "spreadsheetId" := VStr "sheet-1";
                                     "updatedRows" := VInt 0 ]} ]}
            {[ "spreadsheetId" := VStr "sheet-1"; "updatedRows" := VInt 0 ]}
            _ _ _ _ _ _ _).
  - reflexivity.
  - discriminate.
  - reflexivity.
  - simpl. lia.
  - split; [|split; reflexivity]. exists "e30=". split; reflexivity.
  - reflexivity.
  - reflexivity.
Defined.

(** C7: when [GCP_CREDENTIALS_B64] is absent, or present but not decodable
    (base64, UTF-8 or JSON), [GoogleSheetsLogger] raises with an empty trace
    of outside calls, so before any network call.  The two failures differ:
    the exception is a [KeyError] exactly when the secret is absent (it is
    then [KeyError('GCP_CREDENTIALS_B64')]), and one of the decoding errors
    otherwise. *)
Theorem GoogleSheetsLogger_bad_secret `{PyStdlib} env w news_items :
  env !! "GCP_CREDENTIALS_B64" = None
  ∨ (∃ secret e, env !! "GCP_CREDENTIALS_B64" = Some secret
                 ∧ decode_secret secret = inl e) →
  ∃ e, call (GoogleSheetsLogger env w news_items) = (inl e, [])
       ∧ (env !! "GCP_CREDENTIALS_B64" = None → e = KeyError "GCP_CREDENTIALS_B64")
       ∧ (exn_class e = PyKeyError ↔ env !! "GCP_CREDENTIALS_B64" = None).
Proof.
  intros [Hnone | (secret & e & Hsome & Hdec)].
  - exists (KeyError "GCP_CREDENTIALS_B64"). split; [|done].
    apply GoogleSheetsLogger_no_info. unfold environ_getitem. by rewrite Hnone.
  - exists e. split.
    + apply GoogleSheetsLogger_no_info. unfold environ_getitem. by rewrite Hsome.
    + split; [by rewrite Hsome|]. rewrite Hsome.
      pose proof (decode_secret_error_class secret e Hdec) as Hcls.
      split; [|done]. intros Hkey. rewrite Hkey in Hcls.
      rewrite !elem_of_cons, elem_of_nil in Hcls.
      by destruct Hcls as [?|[?|[?|[?|[]]]]].
Qed.

Lemma GoogleSheetsLogger_bad_secret_witness :
  ∃ e, call (GoogleSheetsLogger (H:=sample_stdlib)
               (<["GCP_CREDENTIALS_B64" := "not base64"]> sample_env)
               (sample_world 200 (inr (append_reply 1)) (inr VNone))
               [sample_item]) = (inl e, [])
       ∧ exn_class e ≠ PyKeyError.
Proof.
  destruct (GoogleSheetsLogger_bad_secret (H:=sample_stdlib)
              (<["GCP_CREDENTIALS_B64" := "not base64"]> sample_env)
              (sample_world 200 (inr (append_reply 1)) (inr VNone))
              [sample_item]) as (e & Hcall & _ & Hcls).
  - right. exists "not base64", (Exn PyBinasciiError "Incorrect padding" None).
    split; reflexivity.
  - exists e. split; [exact Hcall|].
    intros Hkey. apply Hcls in Hkey. discriminate Hkey.
Defined.

(** C8: when [SPREADSHEET_ID] is absent, [GoogleSheetsLogger] (with working
    credentials and a well-formed batch) fails before the append request is
    sent.  The tool hands [spreadsheetId=None] to [append], and the Sheets
    client refuses the call while it builds the request: the tool raises
    [TypeError('Missing required parameter "spreadsheetId"')].  The
    spreadsheet service is not asked: the outcome and the trace are the same
    whatever the service would answer. *)
Theorem GoogleSheetsLogger_without_spreadsheet_id `{PyStdlib} env w news_items info :
  env !! "SPREADSHEET_ID" = None →
  credentials_ready env w info →
  Forall (λ item, sheet_item_ok item = true) news_items →
  call (GoogleSheetsLogger env w news_items) =
    (inl (TypeError ("Missing required parameter " +:+ dquote +:+ "spreadsheetId"
                     +:+ dquote)),
     [EvBuild "sheets" "v4" (sheets_credentials info);
      EvAppend (sheets_service info) VNone "Sheet1!A:D" "RAW"
        (sheets_body news_items)])
  ∧ ∀ answer,
      call (GoogleSheetsLogger env (with_sheets_execute answer w) news_items) =
      call (GoogleSheetsLogger env w news_items).
Proof.
  intros Hnone Hready Hall.
  assert (Hcall : ∀ w', credentials_ready env w' info →
    call (GoogleSheetsLogger env w' news_items) =
      (inl (TypeError ("Missing required parameter " +:+ dquote +:+ "spreadsheetId"
                       +:+ dquote)),
       [EvBuild "sheets" "v4" (sheets_credentials info);
        EvAppend (sheets_service info) VNone "Sheet1!A:D" "RAW"
          (sheets_body news_items)])).
  { intros w' Hready'.
    rewrite (GoogleSheetsLogger_call env w' news_items info Hready' Hall).
    unfold environ_get. by rewrite Hnone. }
  split; [by apply Hcall|].
  intros answer. rewrite (Hcall w Hready). by apply Hcall.
Qed.

Lemma GoogleSheetsLogger_without_spreadsheet_id_witness :
  call (GoogleSheetsLogger (H:=sample_stdlib) (delete "SPREADSHEET_ID" sample_env)
          (sample_world 200 (inr (append_reply 1)) (inr VNone)) [sample_item]) =
    (inl (Exn PyTypeError
            ("Missing required parameter " +:+ dquote +:+ "spreadsheetId" +:+ dquote)
            None),
     [EvBuild "sheets" "v4" (sheets_credentials (VDict ∅));
      EvAppend (sheets_service (VDict ∅)) VNone "Sheet1!A:D" "RAW"
        (VDict {[ "values" := VList [VList [VStr "2024-01-01"; VStr "X"; VStr "Y";
                                            VStr "http://z"]] ]})]).
Proof.
  refine (proj1 (GoogleSheetsLogger_without_spreadsheet_id (H:=sample_stdlib)
                   (delete "SPREADSHEET_ID" sample_env)
                   (sample_world 200 (inr (append_reply 1)) (inr VNone)) [sample_item]
                   (VDict ∅) _ _ _)).
  - reflexivity.
  - split; [|split; reflexivity]. exists "e30=". split; reflexivity.
  - repeat constructor.
Defined.

(** C9: when the crew's kickoff raises an exception [e] (an instance of
    [Exception]), [run] has called kickoff exactly once, with no second
    attempt, and raises a new [Exception] whose message is "An error
    occurred while running the crew: " followed by [str(e)] and whose
    context is [e]: the failure is neither retried nor swallowed. *)
Theorem run_wraps_failure w e :
  crew_kickoff w (run_inputs w) = inl e →
  is_Exception e = true →
  call (run w) =
    (inl (Exn PyException ("An error occurred while running the crew: " +:+ exn_str e)
            (Some e)),
     [EvPrint "CrewAI started!"; EvKickoff (run_inputs w)]).
Proof.
  intros Hkick Hexc. unfold run. fold (run_inputs w).
  run_monad. by rewrite Hkick, Hexc.
Qed.

Lemma run_wraps_failure_witness :
  call (run (sample_world 200 (inr VNone) (inl (KeyError "url")))) =
    (inl (Exn PyException "An error occurred while running the crew: 'url'"
            (Some (KeyError "url"))),
     [EvPrint "CrewAI started!";
      EvKickoff {[ "topic" := "Artificial Intelligence and Tech";
                   "current_year" := "2026" ]}]).
Proof.
  apply (run_wraps_failure (sample_world 200 (inr VNone) (inl (KeyError "url")))
           (KeyError "url")); reflexivity.
Defined.

(** X16: when the crew's kickoff succeeds, [run] returns [None]: whatever the
    crew produced is dropped, and kickoff has been called once. *)
Lemma run_success w v :
  crew_kickoff w (run_inputs w) = inr v →
  call (run w) = (inr VNone, [EvPrint "CrewAI started!"; EvKickoff (run_inputs w)]).
Proof.
  intros Hkick. unfold run. fold (run_inputs w). run_monad. by rewrite Hkick.
Qed.

(** X17: an exception out of kickoff that is not an instance of [Exception]
    ([KeyboardInterrupt], [SystemExit]) passes through [run] as it is, without
    the wrapping message. *)
Lemma run_base_exception w e :
  crew_kickoff w (run_inputs w) = inl e →
  is_Exception e = false →
  call (run w) = (inl e, [EvPrint "CrewAI started!"; EvKickoff (run_inputs w)]).
Proof.
  intros Hkick Hexc. unfold run. fold (run_inputs w).
  run_monad. by rewrite Hkick, Hexc.
Qed.

(** C10: with the webhook configured, [SlackBotTool] builds the whole block
    list before its HTTP request.  For a well-formed sequence the single
    request carries, per item and in input order, one section block followed
    by one divider block.  For a sequence with an item that lacks [url],
    [headline] or [summary], building the blocks raises, the tool raises that
    exception, and the trace is empty: no HTTP request is sent. *)
Theorem SlackBotTool_payload_before_request `{PyStdlib} env w summaries channel u :
  env !! "SLACK_WEBHOOK_URL" = Some u → u ≠ "" →
  (Forall (λ item, slack_item_ok item = true) summaries →
   (call (SlackBotTool env w summaries channel)).2 =
     [EvHttp "POST" (VStr u) ∅
        (VDict {[ "channel" := VStr channel;
                  "blocks" := VList (concat (map
                     (λ item,
                        [section_block ("*<" +:+ fmt (field item "url") +:+ "|"
                                        +:+ fmt (field item "headline") +:+ ">*" +:+ nl
                                        +:+ fmt (field item "summary"));
                         divider])
                     summaries)) ]})])
  ∧ (Exists (λ item, slack_item_ok item = false) summaries →
     ∃ e, extend_blocks summaries [] = inl e
          ∧ call (SlackBotTool env w summaries channel) = (inl e, [])).
Proof.
  intros Hu Hne. split.
  - intros Hall. by rewrite (SlackBotTool_call env w summaries channel u Hu Hne Hall).
  - by apply (SlackBotTool_malformed env w summaries channel u).
Qed.

Lemma SlackBotTool_payload_before_request_witness :
  ∃ e, call (SlackBotTool (H:=sample_stdlib) sample_env
               (sample_world 200 (inr VNone) (inr VNone))
               [sample_item; VDict {[ "headline" := VStr "X"; "url" := VStr "http://z" ]}]
               "#general") = (inl e, [])
       ∧ e = KeyError "summary".
Proof.
  destruct (SlackBotTool_payload_before_request (H:=sample_stdlib) sample_env
              (sample_world 200 (inr VNone) (inr VNone))
              [sample_item; VDict {[ "headline" := VStr "X"; "url" := VStr "http://z" ]}]
              "#general" "https://hooks.slack.com/services/T0/B0/x")
    as [_ Hbad].
  - reflexivity.
  - discriminate.
  - destruct Hbad as (e & Hblocks & Hcall).
    + apply Exists_cons_tl, Exists_cons_hd. reflexivity.
    + exists e. split; [exact Hcall|].
      vm_compute in Hblocks. by injection Hblocks as <-.
Defined.

(** ** The end-to-end scenarios of the specification *)

(** Scenario A: one item is posted as one block pair and logged as one row. *)
Example scenario_A :
  call (SlackBotTool (H:=sample_stdlib) sample_env
          (sample_world 200 (inr (append_reply 1)) (inr VNone)) [sample_item]
          "#general") =
    (inr (VDict {[ "status" := VStr "sent"; "count" := VInt 1 ]}),
     [EvHttp "POST" (VStr "https://hooks.slack.com/services/T0/B0/x") ∅
        (VDict {[ "channel" := VStr "#general";
                  "blocks" := VList [section_block ("*<http://z|X>*" +:+ nl +:+ "Y");
                                     divider] ]})])
  ∧ (call (GoogleSheetsLogger (H:=sample_stdlib) sample_env
             (sample_world 200 (inr (append_reply 1)) (inr VNone)) [sample_item])).1 =
      inr (VDict {[ "status" := VStr "logged"; "rows_added" := VInt 1 ]}).
Proof. split; reflexivity. Qed.

(** A non-dict item is rejected with a [TypeError] before anything is sent. *)
Example SlackBotTool_string_item :
  call (SlackBotTool (H:=sample_stdlib) sample_env
          (sample_world 200 (inr VNone) (inr VNone)) [VStr "headline"] "#general") =
    (inl (TypeError "string indices must be integers, not 'str'"), []).
Proof. reflexivity. Qed.

(** A reply without an [updates] object makes the logger raise. *)
Example GoogleSheetsLogger_reply_without_updates :
  call (GoogleSheetsLogger (H:=sample_stdlib) sample_env
          (sample_world 200 (inr (VDict ∅)) (inr VNone)) []) =
    (inl (AttributeError "'NoneType' object has no attribute 'get'"),
     [EvBuild "sheets" "v4" (sheets_credentials (VDict ∅));
      EvAppend (sheets_service (VDict ∅)) (VStr "sheet-1") "Sheet1!A:D" "RAW"
        (VDict {[ "values" := VList [] ]})]).
Proof. reflexivity. Qed.

(** ** Further properties: the chat tool *)

Section slack_more.
Context `{PyStdlib}.
Variable env : gmap string string.
Variable w : world.

Lemma extend_blocks_inv summaries blocks out :
  extend_blocks summaries blocks = inr out →
  Forall (λ item, slack_item_ok item = true) summaries
  ∧ out = blocks ++ concat (map blocks_of summaries).
Proof.
  revert blocks. induction summaries as [|item rest IH]; intros blocks; simpl.
  - intros [= <-]. by rewrite app_nil_r.
  - destruct (slack_item_ok item) eqn:Hok.
    + rewrite (item_blocks_ok _ Hok). simpl. intros Hrest.
      destruct (IH _ Hrest) as [Hall ->].
      split; [by constructor|]. by rewrite <- app_assoc.
    + destruct (item_blocks_bad _ Hok) as [e ->]. discriminate.
Qed.

(** The loop stops at the first item it cannot read. *)
Lemma extend_blocks_first_bad good bad rest blocks e :
  Forall (λ item, slack_item_ok item = true) good →
  item_blocks bad = inl e →
  extend_blocks (good ++ bad :: rest) blocks = inl e.
Proof.
  intros Hgood Hbad. revert blocks.
  induction Hgood as [|item good Hitem _ IH]; intros blocks; simpl.
  - by rewrite Hbad.
  - rewrite (item_blocks_ok _ Hitem). simpl. apply IH.
Qed.

Lemma item_blocks_first_missing d k :
  first_missing ["url"; "headline"; "summary"] d = Some k →
  item_blocks (VDict d) = inl (KeyError k).
Proof.
  unfold item_blocks. simpl.
  destruct (d !! "url"); [|by intros [= <-]].
  destruct (d !! "headline"); [|by intros [= <-]].
  destruct (d !! "summary"); [done|by intros [= <-]].
Qed.

Lemma item_blocks_non_dict item :
  is_dict item = false →
  ∃ e, item_blocks item = inl e ∧ exn_class e = PyTypeError.
Proof.
  unfold item_blocks. destruct item; try discriminate; intros _; simpl; eauto.
Qed.

Lemma SlackBotTool_blocks_fail summaries channel u e :
  env !! "SLACK_WEBHOOK_URL" = Some u → u ≠ "" →
  extend_blocks summaries [] = inl e →
  call (SlackBotTool env w summaries channel) = (inl e, []).
Proof.
  intros Hu Hne He. destruct (webhook_truthy env u Hu Hne) as [Hget Htrue].
  unfold SlackBotTool. rewrite Hget, Htrue. simpl negb. cbv iota.
  run_monad. by rewrite He.
Qed.

Lemma item_blocks_agree a b :
  agree_on ["url"; "headline"; "summary"] a b → item_blocks a = item_blocks b.
Proof.
  unfold agree_on. rewrite !Forall_cons. intros (Hu & Hh & Hs & _).
  unfold item_blocks. by rewrite Hu, Hh, Hs.
Qed.

Lemma extend_blocks_agree s1 s2 blocks :
  Forall2 (agree_on ["url"; "headline"; "summary"]) s1 s2 →
  extend_blocks s1 blocks = extend_blocks s2 blocks.
Proof.
  intros Hall. revert blocks.
  induction Hall as [|a b s1 s2 Hab _ IH]; intros blocks; simpl; [done|].
  rewrite (item_blocks_agree a b Hab).
  destruct (item_blocks b) as [e|new]; simpl; [done|]. apply IH.
Qed.

(** The tool only appends to the trace, and what it does is the same from
    any starting trace. *)
Lemma SlackBotTool_frame summaries channel t :
  SlackBotTool env w summaries channel t =
    ((call (SlackBotTool env w summaries channel)).1,
     t ++ (call (SlackBotTool env w summaries channel)).2).
Proof.
  unfold SlackBotTool.
  destruct (negb (truthy (environ_get env "SLACK_WEBHOOK_URL"))).
  - run_monad. by rewrite app_nil_r.
  - run_monad.
    destruct (extend_blocks summaries []) as [e|blocks]; simpl;
      [by rewrite app_nil_r|].
    destruct (requests_request _ _ _ _ _) as [e|r]; simpl; [done|].
    by destruct (raise_for_status r) as [e|[]].
Qed.

End slack_more.

(** X1: a webhook URL that is set but empty counts as missing:
    [SlackBotTool] raises its missing-configuration exception and makes no
    outside call. *)
Theorem SlackBotTool_empty_webhook `{PyStdlib} env w summaries channel :
  env !! "SLACK_WEBHOOK_URL" = Some "" →
  call (SlackBotTool env w summaries channel) =
    (inl (Exn PyException "Missing SLACK_WEBHOOK_URL in environment variables" None),
     []).
Proof.
  intros Hempty. unfold SlackBotTool, environ_get. by rewrite Hempty.
Qed.

Lemma SlackBotTool_empty_webhook_witness :
  call (SlackBotTool (H:=sample_stdlib) (<["SLACK_WEBHOOK_URL" := ""]> sample_env)
          (sample_world 200 (inr VNone) (inr VNone)) [sample_item] "#general") =
    (inl (Exn PyException "Missing SLACK_WEBHOOK_URL in environment variables" None),
     []).
Proof.
  apply (SlackBotTool_empty_webhook (H:=sample_stdlib)). reflexivity.
Defined.

(** X2: [SlackBotTool] returns a value only after it has posted the whole
    batch: whenever it returns, the webhook was configured and not empty,
    every item had [url], [headline] and [summary], the trace is the single
    POST with the blocks of all items, and the value is the confirmation with
    the length of the input. *)
Theorem SlackBotTool_return_means_posted `{PyStdlib} env w summaries channel v t :
  call (SlackBotTool env w summaries channel) = (inr v, t) →
  ∃ u, env !! "SLACK_WEBHOOK_URL" = Some u ∧ u ≠ ""
       ∧ Forall (λ item, slack_item_ok item = true) summaries
       ∧ t = [EvHttp "POST" (VStr u) ∅ (slack_payload channel summaries)]
       ∧ v = VDict {[ "status" := VStr "sent";
                      "count" := VInt (Z.of_nat (length summaries)) ]}.
Proof.
  intros Hcall.
  destruct (env !! "SLACK_WEBHOOK_URL") as [u|] eqn:Hu.
  2:{ unfold SlackBotTool, environ_get in Hcall. by rewrite Hu in Hcall. }
  destruct (decide (u = "")) as [->|Hne].
  { unfold SlackBotTool, environ_get in Hcall. by rewrite Hu in Hcall. }
  destruct (extend_blocks summaries []) as [e|blocks] eqn:Hblocks.
  { by rewrite (SlackBotTool_blocks_fail env w summaries channel u e Hu Hne Hblocks)
      in Hcall. }
  destruct (extend_blocks_inv _ _ _ Hblocks) as [Hall _].
  rewrite (SlackBotTool_call env w summaries channel u Hu Hne Hall) in Hcall.
  exists u. repeat (split; [done|]).
  destruct (requests_request _ _ _ _ _) as [e|r]; [done|]. simpl in Hcall.
  destruct (raise_for_status r) as [e|[]]; [done|].
  by injection Hcall as <- <-.
Qed.

Lemma SlackBotTool_return_means_posted_witness :
  ∃ u, sample_env !! "SLACK_WEBHOOK_URL" = Some u ∧ u ≠ ""
       ∧ Forall (λ item, slack_item_ok item = true) [sample_item]
       ∧ [EvHttp "POST" (VStr "https://hooks.slack.com/services/T0/B0/x") ∅
            (slack_payload (H:=sample_stdlib) "#general" [sample_item])] =
         [EvHttp "POST" (VStr u) ∅
            (slack_payload (H:=sample_stdlib) "#general" [sample_item])]
       ∧ sent 1 = VDict {[ "status" := VStr "sent"; "count" := VInt 1 ]}.
Proof.
  apply (SlackBotTool_return_means_posted (H:=sample_stdlib) sample_env
           (sample_world 200 (inr VNone) (inr VNone)) [sample_item] "#general").
  reflexivity.
Defined.

(** X3: [SlackBotTool] reads the items in order and each item's keys in the
    order [url], [headline], [summary].  When the first item it cannot read
    is a dict, the tool raises the [KeyError] of the first of these keys the
    dict lacks, whatever follows in the sequence, and makes no outside
    call. *)
Theorem SlackBotTool_first_missing_key `{PyStdlib} env w good d rest channel u k :
  env !! "SLACK_WEBHOOK_URL" = Some u → u ≠ "" →
  Forall (λ item, slack_item_ok item = true) good →
  first_missing ["url"; "headline"; "summary"] d = Some k →
  call (SlackBotTool env w (good ++ VDict d :: rest) channel) = (inl (KeyError k), []).
Proof.
  intros Hu Hne Hgood Hk.
  apply (SlackBotTool_blocks_fail env w _ channel u); [done..|].
  apply extend_blocks_first_bad; [done|]. by apply item_blocks_first_missing.
Qed.

Lemma SlackBotTool_first_missing_key_witness :
  call (SlackBotTool (H:=sample_stdlib) sample_env
          (sample_world 200 (inr VNone) (inr VNone))
          ([sample_item] ++ VDict {[ "summary" := VStr "Y" ]} :: [VStr "later"])
          "#general") = (inl (KeyError "url"), []).
Proof.
  apply (SlackBotTool_first_missing_key (H:=sample_stdlib) sample_env
           (sample_world 200 (inr VNone) (inr VNone)) [sample_item]
           {[ "summary" := VStr "Y" ]} [VStr "later"] "#general"
           "https://hooks.slack.com/services/T0/B0/x" "url").
  - reflexivity.
  - discriminate.
  - repeat constructor.
  - reflexivity.
Defined.

(** X4: an item that is not a dict (a string, a list, a number, [None])
    makes [SlackBotTool] raise a [TypeError] when it is the first item the
    tool cannot read; no outside call is made. *)
Theorem SlackBotTool_non_dict_item `{PyStdlib} env w good bad rest channel u :
  env !! "SLACK_WEBHOOK_URL" = Some u → u ≠ "" →
  Forall (λ item, slack_item_ok item = true) good →
  is_dict bad = false →
  ∃ e, exn_class e = PyTypeError
       ∧ call (SlackBotTool env w (good ++ bad :: rest) channel) = (inl e, []).
Proof.
  intros Hu Hne Hgood Hbad.
  destruct (item_blocks_non_dict bad Hbad) as (e & He & Hcls).
  exists e. split; [done|].
  apply (SlackBotTool_blocks_fail env w _ channel u); [done..|].
  by apply extend_blocks_first_bad.
Qed.

Lemma SlackBotTool_non_dict_item_witness :
  ∃ e, exn_class e = PyTypeError
       ∧ call (SlackBotTool (H:=sample_stdlib) sample_env
                 (sample_world 200 (inr VNone) (inr VNone))
                 ([sample_item] ++ VStr "AI beats humans at chess" :: [])
                 "#general") = (inl e, []).
Proof.
  apply (SlackBotTool_non_dict_item (H:=sample_stdlib) sample_env
           (sample_world 200 (inr VNone) (inr VNone)) [sample_item]
           (VStr "AI beats humans at chess") [] "#general"
           "https://hooks.slack.com/services/T0/B0/x").
  - reflexivity.
  - discriminate.
  - repeat constructor.
  - reflexivity.
Defined.

(** X5: [SlackBotTool] reads nothing of an item but [url], [headline] and
    [summary]: two sequences whose items answer these three subscriptions
    alike (for instance with and without a [date]) give the same outcome and
    the same trace. *)
Theorem SlackBotTool_reads_three_fields `{PyStdlib} env w s1 s2 channel :
  Forall2 (agree_on ["url"; "headline"; "summary"]) s1 s2 →
  call (SlackBotTool env w s1 channel) = call (SlackBotTool env w s2 channel).
Proof.
  intros Hagree. unfold SlackBotTool.
  rewrite (extend_blocks_agree s1 s2 [] Hagree).
  by rewrite (Forall2_length _ _ _ Hagree).
Qed.

Lemma SlackBotTool_reads_three_fields_witness :
  call (SlackBotTool (H:=sample_stdlib) sample_env
          (sample_world 200 (inr VNone) (inr VNone)) [sample_item] "#general") =
  call (SlackBotTool (H:=sample_stdlib) sample_env
          (sample_world 200 (inr VNone) (inr VNone))
          [VDict {[ "headline" := VStr "X"; "summary" := VStr "Y";
                    "url" := VStr "http://z" ]}] "#general").
Proof.
  apply (SlackBotTool_reads_three_fields (H:=sample_stdlib)).
  repeat constructor.
Defined.

(** X6: [SlackBotTool] keeps no record of what it has sent and looks at
    nothing that was sent before.  With the webhook configured and a
    well-formed batch, when a first call returns, a second call with the same
    arguments sends the same POST, with the blocks of the whole batch, once
    more, whatever the world has become in between: together the two calls
    post the batch twice. *)
Theorem SlackBotTool_twice `{PyStdlib} env w1 w2 summaries channel u v t :
  env !! "SLACK_WEBHOOK_URL" = Some u → u ≠ "" →
  Forall (λ item, slack_item_ok item = true) summaries →
  call (SlackBotTool env w1 summaries channel) = (inr v, t) →
  (call (_ ← SlackBotTool env w1 summaries channel;
         SlackBotTool env w2 summaries channel)).2 =
    [EvHttp "POST" (VStr u) ∅ (slack_payload channel summaries);
     EvHttp "POST" (VStr u) ∅ (slack_payload channel summaries)].
Proof.
  intros Hu Hne Hall Hcall.
  pose proof (SlackBotTool_call env w1 summaries channel u Hu Hne Hall) as H1.
  rewrite Hcall in H1. injection H1 as _ ->.
  unfold call in *. unfold mbind, M_bind. rewrite Hcall.
  rewrite SlackBotTool_frame.
  by rewrite (SlackBotTool_call env w2 summaries channel u Hu Hne Hall).
Qed.

Lemma SlackBotTool_twice_witness :
  (call (_ ← SlackBotTool (H:=sample_stdlib) sample_env
               (sample_world 200 (inr VNone) (inr VNone)) [sample_item] "#general";
         SlackBotTool (H:=sample_stdlib) sample_env
           (sample_world 500 (inr VNone) (inr VNone)) [sample_item] "#general")).2 =
    [EvHttp "POST" (VStr "https://hooks.slack.com/services/T0/B0/x") ∅
       (slack_payload (H:=sample_stdlib) "#general" [sample_item]);
     EvHttp "POST" (VStr "https://hooks.slack.com/services/T0/B0/x") ∅
       (slack_payload (H:=sample_stdlib) "#general" [sample_item])].
Proof.
  apply (SlackBotTool_twice (H:=sample_stdlib) sample_env
           (sample_world 200 (inr VNone) (inr VNone))
           (sample_world 500 (inr VNone) (inr VNone)) [sample_item] "#general"
           "https://hooks.slack.com/services/T0/B0/x" (sent 1)
           [EvHttp "POST" (VStr "https://hooks.slack.com/services/T0/B0/x") ∅
              (slack_payload (H:=sample_stdlib) "#general" [sample_item])]).
  - reflexivity.
  - discriminate.
  - repeat constructor.
  - reflexivity.
Defined.

(** ** Further properties: the spreadsheet tool *)

Lemma item_row_bad item :
  sheet_item_ok item = false → ∃ e, item_row item = inl e.
Proof.
  unfold sheet_item_ok, item_row. intros Hbad.
  destruct (has_key "date" item) eqn:Hd.
  2:{ destruct (getitem_no_key _ _ Hd) as [e ->]. by exists e. }
  rewrite (getitem_has_key _ _ Hd). simpl.
  destruct (has_key "headline" item) eqn:Hh.
  2:{ destruct (getitem_no_key _ _ Hh) as [e ->]. by exists e. }
  rewrite (getitem_has_key _ _ Hh). simpl.
  destruct (has_key "summary" item) eqn:Hs.
  2:{ destruct (getitem_no_key _ _ Hs) as [e ->]. by exists e. }
  rewrite (getitem_has_key _ _ Hs). simpl.
  simpl in Hbad. destruct (getitem_no_key _ _ Hbad) as [e ->]. by exists e.
Qed.

Lemma append_rows_inv news_items rows out :
  append_rows news_items rows = inr out →
  Forall (λ item, sheet_item_ok item = true) news_items
  ∧ out = rows ++ map row_of news_items.
Proof.
  revert rows. induction news_items as [|item rest IH]; intros rows; simpl.
  - intros [= <-]. by rewrite app_nil_r.
  - destruct (sheet_item_ok item) eqn:Hok.
    + rewrite (item_row_ok _ Hok). simpl. intros Hrest.
      destruct (IH _ Hrest) as [Hall ->].
      split; [by constructor|]. by rewrite <- app_assoc.
    + destruct (item_row_bad _ Hok) as [e ->]. discriminate.
Qed.

Lemma append_rows_first_bad good bad rest rows e :
  Forall (λ item, sheet_item_ok item = true) good →
  item_row bad = inl e →
  append_rows (good ++ bad :: rest) rows = inl e.
Proof.
  intros Hgood Hbad. revert rows.
  induction Hgood as [|item good Hitem _ IH]; intros rows; simpl.
  - by rewrite Hbad.
  - rewrite (item_row_ok _ Hitem). simpl. apply IH.
Qed.

Lemma item_row_first_missing d k :
  first_missing ["date"; "headline"; "summary"; "url"] d = Some k →
  item_row (VDict d) = inl (KeyError k).
Proof.
  unfold item_row. simpl.
  destruct (d !! "date"); [|by intros [= <-]].
  destruct (d !! "headline"); [|by intros [= <-]].
  destruct (d !! "summary"); [|by intros [= <-]].
  destruct (d !! "url"); [done|by intros [= <-]].
Qed.

Lemma sheet_item_ok_slack item :
  sheet_item_ok item = true → slack_item_ok item = true.
Proof.
  unfold sheet_item_ok, slack_item_ok.
  intros [[[_ Hh]%andb_prop Hs]%andb_prop Hu]%andb_prop.
  by rewrite Hh, Hs, Hu.
Qed.

Section logger_more.
Context `{PyStdlib}.
Variable env : gmap string string.
Variable w : world.

(** With working credentials, a failure of the rows loop ends the call after
    the client has been built and before any append. *)
Lemma GoogleSheetsLogger_rows_fail news_items info e :
  credentials_ready env w info →
  append_rows news_items [] = inl e →
  call (GoogleSheetsLogger env w news_items) =
    (inl e, [EvBuild "sheets" "v4" (sheets_credentials info)]).
Proof.
  intros [(secret & Hsecret & Hdec) [Hacc Hbuild]] Hrows.
  unfold GoogleSheetsLogger, environ_getitem. rewrite Hsecret.
  run_monad. rewrite Hdec. fold SCOPES. rewrite Hacc.
  fold (sheets_credentials info). rewrite Hbuild. by rewrite Hrows.
Qed.

Lemma GoogleSheetsLogger_frame news_items t :
  GoogleSheetsLogger env w news_items t =
    ((call (GoogleSheetsLogger env w news_items)).1,
     t ++ (call (GoogleSheetsLogger env w news_items)).2).
Proof.
  unfold GoogleSheetsLogger. run_monad.
  destruct (environ_getitem env "GCP_CREDENTIALS_B64") as [e|secret]; simpl;
    [by rewrite app_nil_r|].
  destruct (decode_secret secret) as [e|info]; simpl; [by rewrite app_nil_r|].
  destruct (service_account_check w info _) as [e|]; simpl;
    [by rewrite app_nil_r|].
  destruct (discovery_build w _ _ _) as [e|]; simpl; [done|].
  destruct (append_rows news_items []) as [e|rows]; simpl; [done|].
  rewrite <- app_assoc. simpl.
  destruct (sheets_append _ _ _ _ _ _) as [e|reply]; simpl; [done|].
  destruct (get reply "updates") as [e|updates]; simpl; [done|].
  by destruct (get updates "updatedRows") as [e|n].
Qed.

End logger_more.

(** X7: [GoogleSheetsLogger] keeps no record of what it has logged and
    reads nothing back from the sheet.  With working credentials and a
    well-formed batch, when a first call returns, a second call with the same
    items builds the client again and makes the same append call, with all
    the rows, once more, whatever the world has become in between: together
    the two calls append every row twice. *)
Theorem GoogleSheetsLogger_twice `{PyStdlib} env w1 w2 news_items info v t :
  credentials_ready env w1 info →
  credentials_ready env w2 info →
  Forall (λ item, sheet_item_ok item = true) news_items →
  call (GoogleSheetsLogger env w1 news_items) = (inr v, t) →
  (call (_ ← GoogleSheetsLogger env w1 news_items;
         GoogleSheetsLogger env w2 news_items)).2 =
    [EvBuild "sheets" "v4" (sheets_credentials info);
     EvAppend (sheets_service info) (environ_get env "SPREADSHEET_ID")
       "Sheet1!A:D" "RAW" (sheets_body news_items);
     EvBuild "sheets" "v4" (sheets_credentials info);
     EvAppend (sheets_service info) (environ_get env "SPREADSHEET_ID")
       "Sheet1!A:D" "RAW" (sheets_body news_items)].
Proof.
  intros Hready1 Hready2 Hall Hcall.
  pose proof (GoogleSheetsLogger_call env w1 news_items info Hready1 Hall) as H1.
  rewrite Hcall in H1. injection H1 as _ ->.
  unfold call in *. unfold mbind, M_bind. rewrite Hcall.
  rewrite GoogleSheetsLogger_frame.
  by rewrite (GoogleSheetsLogger_call env w2 news_items info Hready2 Hall).
Qed.

Lemma GoogleSheetsLogger_twice_witness :
  (call (_ ← GoogleSheetsLogger (H:=sample_stdlib) sample_env
               (sample_world 200 (inr (append_reply 1)) (inr VNone)) [sample_item];
         GoogleSheetsLogger (H:=sample_stdlib) sample_env
           (sample_world 200 (inr append_reply_no_count) (inr VNone))
           [sample_item])).2 =
    [EvBuild "sheets" "v4" (sheets_credentials (VDict ∅));
     EvAppend (sheets_service (VDict ∅)) (VStr "sheet-1") "Sheet1!A:D" "RAW"
       (sheets_body [sample_item]);
     EvBuild "sheets" "v4" (sheets_credentials (VDict ∅));
     EvAppend (sheets_service (VDict ∅)) (VStr "sheet-1") "Sheet1!A:D" "RAW"
       (sheets_body [sample_item])].
Proof.
  refine (GoogleSheetsLogger_twice (H:=sample_stdlib) sample_env
            (sample_world 200 (inr (append_reply 1)) (inr VNone))
            (sample_world 200 (inr append_reply_no_count) (inr VNone))
            [sample_item] (VDict ∅) (logged (VInt 1))
            [EvBuild "sheets" "v4" (sheets_credentials (VDict ∅));
             EvAppend (sheets_service (VDict ∅)) (VStr "sheet-1") "Sheet1!A:D" "RAW"
               (sheets_body [sample_item])] _ _ _ _).
  - split; [|split; reflexivity]. exists "e30=". split; reflexivity.
  - split; [|split; reflexivity]. exists "e30=". split; reflexivity.
  - repeat constructor.
  - reflexivity.
Defined.

(** X8: a failure of the Google client passes through [GoogleSheetsLogger]
    unchanged and ends the call where it happens: rejected credentials before
    the client is built, a failed [build] before any append, a failed append
    after that one call. *)
Theorem GoogleSheetsLogger_client_failure `{PyStdlib} env w news_items secret info e :
  env !! "GCP_CREDENTIALS_B64" = Some secret →
  decode_secret secret = inr info →
  (service_account_check w info SCOPES = Some e →
   call (GoogleSheetsLogger env w news_items) = (inl e, []))
  ∧ (service_account_check w info SCOPES = None →
     discovery_build w "sheets" "v4" (sheets_credentials info) = Some e →
     call (GoogleSheetsLogger env w news_items) =
       (inl e, [EvBuild "sheets" "v4" (sheets_credentials info)]))
  ∧ (service_account_check w info SCOPES = None →
     discovery_build w "sheets" "v4" (sheets_credentials info) = None →
     Forall (λ item, sheet_item_ok item = true) news_items →
     sheets_append w (sheets_service info) (environ_get env "SPREADSHEET_ID")
       "Sheet1!A:D" "RAW" (sheets_body news_items) = inl e →
     call (GoogleSheetsLogger env w news_items) =
       (inl e, [EvBuild "sheets" "v4" (sheets_credentials info);
                EvAppend (sheets_service info) (environ_get env "SPREADSHEET_ID")
                  "Sheet1!A:D" "RAW" (sheets_body news_items)])).
Proof.
  intros Hsecret Hdec. split; [|split].
  - intros Hacc. unfold GoogleSheetsLogger, environ_getitem. rewrite Hsecret.
    run_monad. rewrite Hdec. fold SCOPES. by rewrite Hacc.
  - intros Hacc Hbuild. unfold GoogleSheetsLogger, environ_getitem. rewrite Hsecret.
    run_monad. rewrite Hdec. fold SCOPES. rewrite Hacc.
    fold (sheets_credentials info). by rewrite Hbuild.
  - intros Hacc Hbuild Hall Happend.
    rewrite (GoogleSheetsLogger_call env w news_items info); [|by repeat split; eauto|done].
    by rewrite Happend.
Qed.

Lemma GoogleSheetsLogger_client_failure_witness :
  call (GoogleSheetsLogger (H:=sample_stdlib) sample_env
          (sample_world 200 (inl (Exn PyHTTPError "HttpError 403" None)) (inr VNone))
          [sample_item]) =
    (inl (Exn PyHTTPError "HttpError 403" None),
     [EvBuild "sheets" "v4" (sheets_credentials (VDict ∅));
      EvAppend (sheets_service (VDict ∅)) (VStr "sheet-1") "Sheet1!A:D" "RAW"
        (sheets_body [sample_item])]).
Proof.
  refine (proj2 (proj2 (GoogleSheetsLogger_client_failure (H:=sample_stdlib) sample_env
            (sample_world 200 (inl (Exn PyHTTPError "HttpError 403" None)) (inr VNone))
            [sample_item] "e30=" (VDict ∅) (Exn PyHTTPError "HttpError 403" None)
            _ _)) _ _ _ _).
  - reflexivity.
  - reflexivity.
  - reflexivity.
  - reflexivity.
  - repeat constructor.
  - reflexivity.
Defined.

(** X9: [GoogleSheetsLogger] builds all rows before it appends any.  It
    reads each item's keys in the order [date], [headline], [summary], [url];
    with working credentials, when the first item it cannot read is a dict,
    it raises the [KeyError] of the first key that dict lacks, after the
    client has been built and with no append call made: no row of the batch
    is written. *)
Theorem GoogleSheetsLogger_first_missing_key `{PyStdlib} env w good d rest info k :
  credentials_ready env w info →
  Forall (λ item, sheet_item_ok item = true) good →
  first_missing ["date"; "headline"; "summary"; "url"] d = Some k →
  call (GoogleSheetsLogger env w (good ++ VDict d :: rest)) =
    (inl (KeyError k), [EvBuild "sheets" "v4" (sheets_credentials info)]).
Proof.
  intros Hready Hgood Hk.
  apply GoogleSheetsLogger_rows_fail; [done|].
  apply append_rows_first_bad; [done|]. by apply item_row_first_missing.
Qed.

Lemma GoogleSheetsLogger_first_missing_key_witness :
  call (GoogleSheetsLogger (H:=sample_stdlib) sample_env
          (sample_world 200 (inr (append_reply 1)) (inr VNone))
          ([sample_item] ++ VDict {[ "headline" := VStr "X"; "summary" := VStr "Y";
                                     "url" := VStr "http://z" ]} :: [])) =
    (inl (KeyError "date"), [EvBuild "sheets" "v4" (sheets_credentials (VDict ∅))]).
Proof.
  apply (GoogleSheetsLogger_first_missing_key (H:=sample_stdlib) sample_env
           (sample_world 200 (inr (append_reply 1)) (inr VNone)) [sample_item]
           {[ "headline" := VStr "X"; "summary" := VStr "Y"; "url" := VStr "http://z" ]}
           [] (VDict ∅) "date").
  - split; [|split; reflexivity]. exists "e30=". split; reflexivity.
  - repeat constructor.
  - reflexivity.
Defined.

(** X10: the count [GoogleSheetsLogger] reports is the service's, not the
    tool's: for a well-formed batch of any length, when the reply is a dict
    whose [updates] entry is a dict, [rows_added] is that dict's
    [updatedRows] entry as it is ([None] when it has none), whatever the
    number of items sent. *)
Theorem GoogleSheetsLogger_rows_added_is_remote `{PyStdlib} env w news_items info
    reply updates :
  credentials_ready env w info →
  Forall (λ item, sheet_item_ok item = true) news_items →
  sheets_append w (sheets_service info) (environ_get env "SPREADSHEET_ID")
    "Sheet1!A:D" "RAW" (sheets_body news_items) = inr (VDict reply) →
  reply !! "updates" = Some (VDict updates) →
  (call (GoogleSheetsLogger env w news_items)).1 =
    inr (VDict {[ "status" := VStr "logged";
                  "rows_added" := default VNone (updates !! "updatedRows") ]}).
Proof.
  intros Hready Hall Hreply Hupdates.
  rewrite (GoogleSheetsLogger_call env w news_items info Hready Hall).
  rewrite Hreply. simpl. by rewrite Hupdates.
Qed.

Lemma GoogleSheetsLogger_rows_added_is_remote_witness :
  (call (GoogleSheetsLogger (H:=sample_stdlib) sample_env
           (sample_world 200 (inr (append_reply 7)) (inr VNone)) [sample_item])).1 =
    inr (VDict {[ "status" := VStr "logged"; "rows_added" := VInt 7 ]}).
Proof.
  refine (GoogleSheetsLogger_rows_added_is_remote (H:=sample_stdlib) sample_env
            (sample_world 200 (inr (append_reply 7)) (inr VNone)) [sample_item]
            (VDict ∅)
            {[ "spreadsheetId" := VStr "sheet-1";
               "updates" := VDict {[ "spreadsheetId" := VStr "sheet-1";
                                     "updatedRows" := VInt 7 ]} ]}
            {[ "spreadsheetId" := VStr "sheet-1"; "updatedRows" := VInt 7 ]}
            _ _ _ _).
  - split; [|split; reflexivity]. exists "e30=". split; reflexivity.
  - repeat constructor.
  - reflexivity.
  - reflexivity.
Defined.

(** X11: when the reply to the append is a dict without an [updates] entry,
    [GoogleSheetsLogger] raises an [AttributeError] ([None] has no [get])
    after the append call has been made: the rows have gone out although the
    tool reports a failure. *)
Theorem GoogleSheetsLogger_reply_without_updates_raises `{PyStdlib} env w news_items
    info reply :
  credentials_ready env w info →
  Forall (λ item, sheet_item_ok item = true) news_items →
  sheets_append w (sheets_service info) (environ_get env "SPREADSHEET_ID")
    "Sheet1!A:D" "RAW" (sheets_body news_items) = inr (VDict reply) →
  reply !! "updates" = None →
  call (GoogleSheetsLogger env w news_items) =
    (inl (AttributeError "'NoneType' object has no attribute 'get'"),
     [EvBuild "sheets" "v4" (sheets_credentials info);
      EvAppend (sheets_service info) (environ_get env "SPREADSHEET_ID")
        "Sheet1!A:D" "RAW" (sheets_body news_items)]).
Proof.
  intros Hready Hall Hreply Hupdates.
  rewrite (GoogleSheetsLogger_call env w news_items info Hready Hall).
  rewrite Hreply. simpl. by rewrite Hupdates.
Qed.

Lemma GoogleSheetsLogger_reply_without_updates_raises_witness :
  call (GoogleSheetsLogger (H:=sample_stdlib) sample_env
          (sample_world 200 (inr (VDict {[ "spreadsheetId" := VStr "sheet-1" ]}))
             (inr VNone)) [sample_item]) =
    (inl (AttributeError "'NoneType' object has no attribute 'get'"),
     [EvBuild "sheets" "v4" (sheets_credentials (VDict ∅));
      EvAppend (sheets_service (VDict ∅)) (VStr "sheet-1") "Sheet1!A:D" "RAW"
        (sheets_body [sample_item])]).
Proof.
  refine (GoogleSheetsLogger_reply_without_updates_raises (H:=sample_stdlib) sample_env
            (sample_world 200 (inr (VDict {[ "spreadsheetId" := VStr "sheet-1" ]}))
               (inr VNone)) [sample_item] (VDict ∅)
            {[ "spreadsheetId" := VStr "sheet-1" ]} _ _ _ _).
  - split; [|split; reflexivity]. exists "e30=". split; reflexivity.
  - repeat constructor.
  - reflexivity.
  - reflexivity.
Defined.

(** X12: [GoogleSheetsLogger] returns a value only after the whole batch has
    gone out in one append call: whenever it returns, the credentials were
    loaded and accepted, every item had the four keys, the trace is the
    client build followed by the single append with all rows, and the value
    is a [logged] confirmation. *)
Theorem GoogleSheetsLogger_return_means_appended `{PyStdlib} env w news_items v t :
  call (GoogleSheetsLogger env w news_items) = (inr v, t) →
  ∃ info rows_added,
    credentials_ready env w info
    ∧ Forall (λ item, sheet_item_ok item = true) news_items
    ∧ t = [EvBuild "sheets" "v4" (sheets_credentials info);
           EvAppend (sheets_service info) (environ_get env "SPREADSHEET_ID")
             "Sheet1!A:D" "RAW" (sheets_body news_items)]
    ∧ v = VDict {[ "status" := VStr "logged"; "rows_added" := rows_added ]}.
Proof.
  intros Hcall.
  destruct (env !! "GCP_CREDENTIALS_B64") as [secret|] eqn:Hsecret.
  2:{ rewrite (GoogleSheetsLogger_no_info env w news_items
                 (KeyError "GCP_CREDENTIALS_B64")) in Hcall; [done|].
      unfold environ_getitem. by rewrite Hsecret. }
  destruct (decode_secret secret) as [e|info] eqn:Hdec.
  { rewrite (GoogleSheetsLogger_no_info env w news_items e) in Hcall; [done|].
    unfold environ_getitem. by rewrite Hsecret. }
  destruct (service_account_check w info SCOPES) as [e|] eqn:Hacc.
  { unfold GoogleSheetsLogger, environ_getitem in Hcall. rewrite Hsecret in Hcall.
    revert Hcall. run_monad. rewrite Hdec. fold SCOPES. by rewrite Hacc. }
  destruct (discovery_build w "sheets" "v4" (sheets_credentials info)) as [e|] eqn:Hb.
  { unfold GoogleSheetsLogger, environ_getitem in Hcall. rewrite Hsecret in Hcall.
    revert Hcall. run_monad. rewrite Hdec. fold SCOPES. rewrite Hacc.
    fold (sheets_credentials info). by rewrite Hb. }
  assert (Hready : credentials_ready env w info) by (repeat split; eauto).
  destruct (append_rows news_items []) as [e|rows] eqn:Hrows.
  { by rewrite (GoogleSheetsLogger_rows_fail env w news_items info e Hready Hrows)
      in Hcall. }
  destruct (append_rows_inv _ _ _ Hrows) as [Hall _].
  rewrite (GoogleSheetsLogger_call env w news_items info Hready Hall) in Hcall.
  destruct (sheets_append _ _ _ _ _ _) as [e|reply]; [done|]. simpl in Hcall.
  destruct (get reply "updates") as [e|updates]; [done|]. simpl in Hcall.
  destruct (get updates "updatedRows") as [e|n]; [done|].
  injection Hcall as <- <-. by exists info, n.
Qed.

Lemma GoogleSheetsLogger_return_means_appended_witness :
  ∃ info rows_added,
    credentials_ready (H:=sample_stdlib) sample_env
      (sample_world 200 (inr (append_reply 1)) (inr VNone)) info
    ∧ Forall (λ item, sheet_item_ok item = true) [sample_item]
    ∧ [EvBuild "sheets" "v4" (sheets_credentials (VDict ∅));
       EvAppend (sheets_service (VDict ∅)) (VStr "sheet-1") "Sheet1!A:D" "RAW"
         (sheets_body [sample_item])] =
      [EvBuild "sheets" "v4" (sheets_credentials info);
       EvAppend (sheets_service info) (environ_get sample_env "SPREADSHEET_ID")
         "Sheet1!A:D" "RAW" (sheets_body [sample_item])]
    ∧ logged (VInt 1) = VDict {[ "status" := VStr "logged"; "rows_added" := rows_added ]}.
Proof.
  apply (GoogleSheetsLogger_return_means_appended (H:=sample_stdlib) sample_env
           (sample_world 200 (inr (append_reply 1)) (inr VNone)) [sample_item]).
  reflexivity.
Defined.

(** ** Further properties: the two loops on one batch *)

Lemma blocks_of_lookup `{PyStdlib} (items : list value) (i : nat) item :
  items !! i = Some item →
  concat (map blocks_of items) !! (2 * i)%nat =
    Some (section_block (section_text (field item "url") (field item "headline")
                           (field item "summary")))
  ∧ concat (map blocks_of items) !! (2 * i + 1)%nat = Some divider.
Proof.
  revert i. induction items as [|first rest IH]; intros i; [done|].
  destruct i as [|i]; simpl.
  - by intros [= ->].
  - intros Hi. destruct (IH i Hi) as [Hsec Hdiv].
    replace (i + S (i + 0))%nat with (S (2 * i))%nat by lia.
    replace (i + S (i + 0) + 1)%nat with (S (2 * i + 1))%nat by lia.
    done.
Qed.

Lemma blocks_of_length `{PyStdlib} (items : list value) :
  length (concat (map blocks_of items)) = (2 * length items)%nat.
Proof.
  induction items as [|item rest IH]; simpl; [done|]. rewrite IH. lia.
Qed.

(** X13: a batch the spreadsheet loop accepts is a batch the chat loop
    accepts, and the two agree item by item: when [append_rows] yields the
    rows, [extend_blocks] yields two blocks per row, and for the row
    [[date, headline, summary, url]] at index [i] the block at [2i] is the
    section whose text is made of that same [url], [headline] and [summary],
    and the block at [2i+1] is a divider. *)
Theorem rows_and_blocks_correspond `{PyStdlib} (news_items rows : list value) :
  append_rows news_items [] = inr rows →
  ∃ blocks,
    extend_blocks news_items [] = inr blocks
    ∧ length blocks = (2 * length rows)%nat
    ∧ ∀ (i : nat) date headline summary url,
        rows !! i = Some (VList [date; headline; summary; url]) →
        blocks !! (2 * i)%nat =
          Some (section_block ("*<" +:+ fmt url +:+ "|" +:+ fmt headline +:+ ">*"
                               +:+ nl +:+ fmt summary))
        ∧ blocks !! (2 * i + 1)%nat = Some divider.
Proof.
  intros Hrows. destruct (append_rows_inv _ _ _ Hrows) as [Hall ->]. simpl.
  assert (Hslack : Forall (λ item, slack_item_ok item = true) news_items).
  { eapply Forall_impl; [exact Hall|]. intros item. apply sheet_item_ok_slack. }
  exists (concat (map blocks_of news_items)).
  split; [by rewrite (extend_blocks_ok _ _ Hslack)|].
  split; [by rewrite blocks_of_length, length_map|].
  intros i date headline summary url Hrow.
  rewrite list_lookup_fmap in Hrow.
  destruct (news_items !! i) as [item|] eqn:Hitem; [|done].
  simpl in Hrow. injection Hrow as _ <- <- <-.
  exact (blocks_of_lookup news_items i item Hitem).
Qed.

Lemma rows_and_blocks_correspond_witness :
  ∃ blocks,
    extend_blocks (H:=sample_stdlib) [sample_item] [] = inr blocks
    ∧ blocks !! 0%nat = Some (section_block ("*<http://z|X>*" +:+ nl +:+ "Y"))
    ∧ blocks !! 1%nat = Some divider.
Proof.
  destruct (rows_and_blocks_correspond (H:=sample_stdlib) [sample_item]
              [VList [VStr "2024-01-01"; VStr "X"; VStr "Y"; VStr "http://z"]])
    as (blocks & Hblocks & _ & Hat).
  - reflexivity.
  - exists blocks. split; [exact Hblocks|].
    exact (Hat 0%nat (VStr "2024-01-01") (VStr "X") (VStr "Y") (VStr "http://z")
             eq_refl).
Defined.

(** ** Further properties: the search tool *)

(** X14: [NewsFetcherTool] never looks at the HTTP status.  With the key
    set, it makes one POST to the search service, with the key in the
    [X-API-KEY] header and [{"q": topic}] as body, and returns the parsed
    JSON body of the reply whatever its status: an error reply from the
    service comes back as a normal result. *)
Theorem NewsFetcherTool_ignores_status env w topic key r v :
  env !! "SERPER_API_KEY" = Some key →
  requests_request w "POST" (VStr "https://google.serper.dev/search")
    (serper_headers (VStr key)) (VDict {[ "q" := VStr topic ]}) = inr r →
  json_body r = inr v →
  call (NewsFetcherTool env w topic) =
    (inr v,
     [EvHttp "POST" (VStr "https://google.serper.dev/search")
        (serper_headers (VStr key)) (VDict {[ "q" := VStr topic ]})]).
Proof.
  intros Hkey Hr Hv. unfold NewsFetcherTool, environ_get. rewrite Hkey.
  fold (serper_headers (VStr key)). run_monad. by rewrite Hr, Hv.
Qed.

Lemma NewsFetcherTool_ignores_status_witness :
  call (NewsFetcherTool sample_env (sample_world 500 (inr VNone) (inr VNone)) "AI") =
    (inr (VDict {[ "message" := VStr "Unauthorized." ]}),
     [EvHttp "POST" (VStr "https://google.serper.dev/search")
        (serper_headers (VStr "serper-key")) (VDict {[ "q" := VStr "AI" ]})]).
Proof.
  apply (NewsFetcherTool_ignores_status sample_env
           (sample_world 500 (inr VNone) (inr VNone)) "AI" "serper-key"
           (Response 500 "" "https://google.serper.dev/search"
              (inr (VDict {[ "message" := VStr "Unauthorized." ]})))).
  - reflexivity.
  - reflexivity.
  - reflexivity.
Defined.

(** X15: [NewsFetcherTool] catches nothing: a failure of the request, or of
    parsing the body of the reply as JSON, comes out of the tool unchanged,
    after the one request has been made. *)
Theorem NewsFetcherTool_failures_propagate env w topic e :
  requests_request w "POST" (VStr "https://google.serper.dev/search")
    (serper_headers (environ_get env "SERPER_API_KEY"))
    (VDict {[ "q" := VStr topic ]}) = inl e
  ∨ (∃ r, requests_request w "POST" (VStr "https://google.serper.dev/search")
            (serper_headers (environ_get env "SERPER_API_KEY"))
            (VDict {[ "q" := VStr topic ]}) = inr r
          ∧ json_body r = inl e) →
  call (NewsFetcherTool env w topic) =
    (inl e,
     [EvHttp "POST" (VStr "https://google.serper.dev/search")
        (serper_headers (environ_get env "SERPER_API_KEY"))
        (VDict {[ "q" := VStr topic ]})]).
Proof.
  intros Hfail. unfold NewsFetcherTool.
  fold (serper_headers (environ_get env "SERPER_API_KEY")). run_monad.
  destruct Hfail as [Hr | (r & Hr & Hjson)]; rewrite Hr; [done|].
  by rewrite Hjson.
Qed.

Lemma NewsFetcherTool_failures_propagate_witness :
  call (NewsFetcherTool sample_env
          {| requests_request := λ _ _ _ _,
               inr (Response 200 "OK" "https://google.serper.dev/search"
                      (inl (Exn PyJSONDecodeError "Expecting value" None)));
             service_account_check := λ _ _, None;
             discovery_build := λ _ _ _, None;
             sheets_execute := λ _ _ _ _ _, inr VNone;
             crew_kickoff := λ _, inr VNone;
             clock_year := 2026 |} "AI") =
    (inl (Exn PyJSONDecodeError "Expecting value" None),
     [EvHttp "POST" (VStr "https://google.serper.dev/search")
        (serper_headers (VStr "serper-key")) (VDict {[ "q" := VStr "AI" ]})]).
Proof.
  apply (NewsFetcherTool_failures_propagate sample_env _ "AI").
  right. eexists. split; reflexivity.
Defined.

(** ** Further properties: [run] *)

Lemma run_success_witness :
  call (run (sample_world 200 (inr VNone) (inr (VStr "final report")))) =
    (inr VNone,
     [EvPrint "CrewAI started!";
      EvKickoff (run_inputs (sample_world 200 (inr VNone) (inr (VStr "final report"))))]).
Proof.
  apply (run_success (sample_world 200 (inr VNone) (inr (VStr "final report")))
           (VStr "final report")).
  reflexivity.
Defined.

Lemma run_base_exception_witness :
  call (run (sample_world 200 (inr VNone)
               (inl (Exn (PyBaseOnly "KeyboardInterrupt") "" None)))) =
    (inl (Exn (PyBaseOnly "KeyboardInterrupt") "" None),
     [EvPrint "CrewAI started!";
      EvKickoff (run_inputs (sample_world 200 (inr VNone)
                               (inl (Exn (PyBaseOnly "KeyboardInterrupt") "" None))))]).
Proof.
  apply (run_base_exception
           (sample_world 200 (inr VNone)
              (inl (Exn (PyBaseOnly "KeyboardInterrupt") "" None)))
           (Exn (PyBaseOnly "KeyboardInterrupt") "" None)); reflexivity.
Defined.

(** X19: [run] fails exactly when kickoff fails, and what it raises is then
    either the wrapping [Exception], whose context is the original exception
    and whose message ends with the original's [str], or the original
    exception itself when that is not an instance of [Exception]. *)
Theorem run_fails_iff_kickoff_fails w e :
  (call (run w)).1 = inl e ↔
  ∃ e0, crew_kickoff w (run_inputs w) = inl e0
        ∧ e = if is_Exception e0
              then Exn PyException
                     ("An error occurred while running the crew: " +:+ exn_str e0)
                     (Some e0)
              else e0.
Proof.
  unfold run. fold (run_inputs w). run_monad.
  destruct (crew_kickoff w (run_inputs w)) as [e0|v]; simpl.
  - destruct (is_Exception e0) eqn:Hexc; simpl.
    + split.
      * intros [= <-]. exists e0. by rewrite Hexc.
      * intros (e1 & [= <-] & ->). by rewrite Hexc.
    + split.
      * intros [= <-]. exists e0. by rewrite Hexc.
      * intros (e1 & [= <-] & ->). by rewrite Hexc.
  - split; [done|]. by intros (e0 & ? & _).
Qed.
